(** * Mindual web client: chat session, response decoration, calendar grid

    A shallow embedding of [src/web/src/App.jsx]: the values the component
    computes with, the decoration of a RAG answer ([handleSubmit], lines
    111-131), the month grid ([calendar], lines 27-57), the event store
    ([fetchEvents], lines 62-74), the asynchronous control flow of
    [handleSubmit] as a step function over the component state, and what
    the returned markup computes from that state (lines 152-352). *)

From Stdlib Require Import ZArith List String Ascii Bool Lia Arith.
From Stdlib Require Import DecimalString DecimalZ DecimalPos Sorted.
From Equations Require Import Equations.
Import ListNotations.

Local Open Scope string_scope.
Local Open Scope Z_scope.
Set Warnings "-register-all".

(** ** JavaScript values

    The values that [JSON.parse] yields, plus [undefined] (what reading a
    missing property gives).  A string holds the UTF-8 bytes of the text.  A
    number is the integer it denotes: page numbers and clock readings are
    integers, and every integer of magnitude at most 2^53 is a number of the
    engine with the decimal spelling [number_to_string] gives it.  The
    property list of an object has one entry per property name, as a parsed
    object has. *)
Module JS.

Inductive value : Type :=
| VUndefined
| VNull
| VBool (b : bool)
| VNum (z : Z)
| VStr (s : string)
| VArr (items : list value)
| VObj (props : list (string * value)).

(** A completion: the expression has a value, or it throws.  The only
    exception the modelled expressions raise themselves is [TypeError]. *)
Inductive error : Type := TypeError.

Inductive completion (A : Type) : Type :=
| Normal (a : A)
| Throw (e : error).
Arguments Normal {A} a.
Arguments Throw {A} e.

Definition bind {A B} (c : completion A) (k : A -> completion B) : completion B :=
  match c with
  | Normal a => k a
  | Throw e => Throw e
  end.

Notation "x <- c ;; k" := (bind c (fun x => k))
  (at level 61, c at next level, right associativity).

(** [v === undefined || v === null], the test behind [??]. *)
Definition nullish (v : value) : bool :=
  match v with
  | VUndefined | VNull => true
  | _ => false
  end.

(** [a ?? b] on values already computed. *)
Definition coalesce (a b : value) : value := if nullish a then b else a.

(** ToBoolean. *)
Definition truthy (v : value) : bool :=
  match v with
  | VUndefined | VNull => false
  | VBool b => b
  | VNum z => negb (z =? 0)
  | VStr s => negb (s =? "")%string
  | VArr _ | VObj _ => true
  end.

(** [a || b] on values already computed. *)
Definition or_else (a b : value) : value := if truthy a then a else b.

Fixpoint own (props : list (string * value)) (name : string) : option value :=
  match props with
  | [] => None
  | (k, v) :: rest => if (k =? name)%string then Some v else own rest name
  end.

Definition has_own (props : list (string * value)) (name : string) : bool :=
  match own props name with
  | Some _ => true
  | None => false
  end.

(** The property names the component reads from values of unknown shape.
    No built-in prototype defines any of them, so a read finds an own
    property of an object or nothing. *)
Inductive property : Type := page | page_number.

Definition property_name (p : property) : string :=
  match p with
  | page => "page"
  | page_number => "page_number"
  end.

(** [v.p]: reading a property of [undefined] or [null] throws. *)
Definition get (v : value) (p : property) : completion value :=
  match v with
  | VUndefined | VNull => Throw TypeError
  | VObj props =>
      Normal (match own props (property_name p) with
              | Some x => x
              | None => VUndefined
              end)
  | _ => Normal VUndefined
  end.

(** Number::toString on an integer. *)
Definition number_to_string (z : Z) : string :=
  NilZero.string_of_int (Z.to_int z).

Fixpoint join (sep : string) (parts : list string) : string :=
  match parts with
  | [] => ""
  | [s] => s
  | s :: rest => s ++ sep ++ join sep rest
  end.

Fixpoint sequence {A} (cs : list (completion A)) : completion (list A) :=
  match cs with
  | [] => Normal []
  | c :: rest => a <- c ;; l <- sequence rest ;; Normal (a :: l)
  end.

(** ToString, as a template literal and [+] with a string apply it.  An
    array prints through [Array.prototype.join], where [undefined] and
    [null] items print as nothing.  A parsed object has no callable own
    property: it prints through [Object.prototype.toString] unless an own
    [toString] shadows that, and then the conversion throws. *)
Fixpoint to_string (v : value) : completion string :=
  match v with
  | VUndefined => Normal "undefined"
  | VNull => Normal "null"
  | VBool true => Normal "true"
  | VBool false => Normal "false"
  | VNum z => Normal (number_to_string z)
  | VStr s => Normal s
  | VArr items =>
      parts <- sequence
        (map (fun item => if nullish item then Normal "" else to_string item) items) ;;
      Normal (join "," parts)
  | VObj props =>
      if has_own props "toString" then Throw TypeError
      else Normal "[object Object]"
  end.

Definition LF : string := String (ascii_of_nat 10) "".

(** *** [String.prototype.trim]

    The white space and line terminators of ECMAScript in their UTF-8
    spelling: TAB, LF, VT, FF, CR and SP; U+00A0; U+1680; U+2000 to U+200A,
    U+2028, U+2029 and U+202F; U+205F; U+3000; U+FEFF. *)
Definition space1 (a : ascii) : bool :=
  let n := nat_of_ascii a in
  ((9 <=? n) && (n <=? 13) || (n =? 32))%nat.

Definition space2 (a b : ascii) : bool :=
  ((nat_of_ascii a =? 194) && (nat_of_ascii b =? 160))%nat.

Definition space3 (a b c : ascii) : bool :=
  let x := nat_of_ascii a in
  let y := nat_of_ascii b in
  let z := nat_of_ascii c in
  ((x =? 225) && (y =? 154) && (z =? 128)
   || (x =? 226) && (y =? 128)
      && ((128 <=? z) && (z <=? 138) || (z =? 168) || (z =? 169) || (z =? 175))
   || (x =? 226) && (y =? 129) && (z =? 159)
   || (x =? 227) && (y =? 128) && (z =? 128)
   || (x =? 239) && (y =? 187) && (z =? 191))%nat.

Fixpoint trim_start (l : list ascii) : list ascii :=
  match l with
  | [] => []
  | a :: l1 =>
      if space1 a then trim_start l1
      else match l1 with
           | [] => l
           | b :: l2 =>
               if space2 a b then trim_start l2
               else match l2 with
                    | [] => l
                    | c :: l3 => if space3 a b c then trim_start l3 else l
                    end
           end
  end.

(** The same scan from the last byte backwards, on the reversed text. *)
Fixpoint trim_end_rev (l : list ascii) : list ascii :=
  match l with
  | [] => []
  | c :: l1 =>
      if space1 c then trim_end_rev l1
      else match l1 with
           | [] => l
           | b :: l2 =>
               if space2 b c then trim_end_rev l2
               else match l2 with
                    | [] => l
                    | a :: l3 => if space3 a b c then trim_end_rev l3 else l
                    end
           end
  end.

Definition trim (s : string) : string :=
  string_of_list_ascii
    (rev (trim_end_rev (rev (trim_start (list_ascii_of_string s))))).

End JS.

(** ** Dates

    A [Date] at local midnight, as the grid builder uses it: the calendar
    day it falls on, in a time zone that has every day of the calendar.
    [new_Date] is the three-argument constructor with its carrying of months
    and days into their neighbours and its reading of the years 0 to 99 as
    1900 to 1999; [getDay] is the engine's week day, from the day number
    since 1 January 1970.  The engine's time value reaches 100,000,000 days
    either side of that day: every day of the years -271820 to 275759 is a
    [Date], and [valid] keeps to them. *)
Module Date.

Record t : Type := mk { getFullYear : Z; getMonth : Z; getDate : Z }.

Definition leap (y : Z) : bool :=
  ((y mod 4 =? 0) && negb (y mod 100 =? 0)) || (y mod 400 =? 0).

Definition days_in_month (y m : Z) : Z :=
  if m =? 1 then (if leap y then 29 else 28)
  else if (m =? 3) || (m =? 5) || (m =? 8) || (m =? 10) then 30
  else 31.

Definition next_day (d : t) : t :=
  if getDate d <? days_in_month (getFullYear d) (getMonth d)
  then mk (getFullYear d) (getMonth d) (getDate d + 1)
  else if getMonth d <? 11 then mk (getFullYear d) (getMonth d + 1) 1
  else mk (getFullYear d + 1) 0 1.

Definition prev_day (d : t) : t :=
  if 1 <? getDate d then mk (getFullYear d) (getMonth d) (getDate d - 1)
  else if 0 <? getMonth d
  then mk (getFullYear d) (getMonth d - 1)
          (days_in_month (getFullYear d) (getMonth d - 1))
  else mk (getFullYear d - 1) 11 31.

(** MakeFullYear. *)
Definition full_year (year : Z) : Z :=
  if (0 <=? year) && (year <=? 99) then 1900 + year else year.

(** [new Date(year, month, day)]: day 1 of the month [month] counted from
    January of the year, moved by [day - 1] days. *)
Definition new_Date (year month day : Z) : t :=
  let first := mk (full_year year + month / 12) (month mod 12) 1 in
  if 1 <=? day then Nat.iter (Z.to_nat (day - 1)) next_day first
  else Nat.iter (Z.to_nat (1 - day)) prev_day first.

(** DayFromYear: the day number of 1 January of [y]. *)
Definition day_from_year (y : Z) : Z :=
  365 * (y - 1970) + (y - 1969) / 4 - (y - 1901) / 100 + (y - 1601) / 400.

(** Days of the year before the month [m]. *)
Definition days_before_month (y m : Z) : Z :=
  let l := if leap y then 1 else 0 in
  if m =? 0 then 0
  else if m =? 1 then 31
  else if m =? 2 then 59 + l
  else if m =? 3 then 90 + l
  else if m =? 4 then 120 + l
  else if m =? 5 then 151 + l
  else if m =? 6 then 181 + l
  else if m =? 7 then 212 + l
  else if m =? 8 then 243 + l
  else if m =? 9 then 273 + l
  else if m =? 10 then 304 + l
  else 334 + l.

Definition day_number (d : t) : Z :=
  day_from_year (getFullYear d)
  + days_before_month (getFullYear d) (getMonth d)
  + (getDate d - 1).

(** WeekDay: 0 is Sunday; 1 January 1970 was a Thursday. *)
Definition getDay (d : t) : Z := (day_number d + 4) mod 7.

(** A day of the calendar that the engine represents. *)
Definition valid (d : t) : Prop :=
  -271820 <= getFullYear d <= 275759 /\
  0 <= getMonth d <= 11 /\
  1 <= getDate d <= days_in_month (getFullYear d) (getMonth d).

End Date.

(** ** The month grid ([calendar], lines 9-14 and 27-57) *)
Module Grid.
Import JS.

(** [text.padStart(2, '0')] on a text of ASCII characters. *)
Definition padStart2 (s : string) : string :=
  match String.length s with
  | O => "00"
  | S O => "0" ++ s
  | _ => s
  end.

Definition formatISODate (date : Date.t) : string :=
  let year := Date.getFullYear date in
  let month := padStart2 (number_to_string (Date.getMonth date + 1)) in
  let day := padStart2 (number_to_string (Date.getDate date)) in
  number_to_string year ++ "-" ++ month ++ "-" ++ day.

(** A day cell; the padding cells are [null], here [None]. *)
Record cell : Type := { key : string; label : Z; isToday : bool }.

(** What [calendar] returns: its [label] (here [month_label]) and its
    [cells]. *)
Record month_grid : Type := { month_label : string; cells : list (option cell) }.

(** [today] (lines 16-19) from the current time [now]. *)
Definition today (now : Date.t) : Date.t :=
  Date.new_Date (Date.getFullYear now) (Date.getMonth now) (Date.getDate now).

(** Lines 36-38. *)
Equations? push_blanks (i startWeekday : Z) (cells : list (option cell))
  : list (option cell) by wf (Z.to_nat (startWeekday - i)) lt :=
  push_blanks i startWeekday cells with Z_lt_dec i startWeekday => {
    | left _ => push_blanks (i + 1) startWeekday (cells ++ [None])%list;
    | right _ => cells }.
Proof. lia. Qed.

Definition day_cell (today : Date.t) (year monthIndex day : Z) : cell :=
  let currentDate := Date.new_Date year monthIndex day in
  {| key := formatISODate currentDate;
     label := day;
     isToday := day =? Date.getDate today |}.

(** Lines 40-47. *)
Equations? push_days (today : Date.t) (year monthIndex day daysInMonth : Z)
  (cells : list (option cell))
  : list (option cell) by wf (Z.to_nat (daysInMonth + 1 - day)) lt :=
  push_days today year monthIndex day daysInMonth cells
    with Z_le_dec day daysInMonth => {
    | left _ =>
        push_days today year monthIndex (day + 1) daysInMonth
          (cells ++ [Some (day_cell today year monthIndex day)])%list;
    | right _ => cells }.
Proof. lia. Qed.

Lemma pad_week_measure (n : nat) :
  (n mod 7 <> 0 -> (7 - (n + 1) mod 7) mod 7 < (7 - n mod 7) mod 7)%nat.
Proof.
  intros Hn.
  pose proof (Nat.mod_upper_bound n 7 ltac:(lia)) as Hb.
  rewrite (Nat.Div0.add_mod n 1 7).
  remember (n mod 7)%nat as r eqn:Hr. clear Hr.
  do 7 (destruct r as [|r]; [ first [ congruence | cbn; lia ] | ]).
  lia.
Qed.

(** Lines 49-51. *)
Equations? pad_week (cells : list (option cell))
  : list (option cell) by wf ((7 - List.length cells mod 7) mod 7)%nat lt :=
  pad_week cells with Nat.eq_dec (List.length cells mod 7)%nat 0%nat => {
    | left _ => cells;
    | right _ => pad_week (cells ++ [None])%list }.
Proof.
  rewrite length_app.
  match goal with H : _ <> 0%nat |- _ => exact (pad_week_measure _ H) end.
Qed.

Definition calendar (today : Date.t) : month_grid :=
  let year := Date.getFullYear today in
  let monthIndex := Date.getMonth today in
  let firstDay := Date.new_Date year monthIndex 1 in
  let startWeekday := Date.getDay firstDay in
  let daysInMonth := Date.getDate (Date.new_Date year (monthIndex + 1) 0) in
  let cells := push_blanks 0 startWeekday [] in
  let cells := push_days today year monthIndex 1 daysInMonth cells in
  let cells := pad_week cells in
  {| month_label :=
       number_to_string year ++ "년 " ++ number_to_string (monthIndex + 1) ++ "월";
     cells := cells |}.

(** The days [day], [day + 1], ... ([count] of them). *)
Definition days_from (day : Z) (count : nat) : list Z :=
  map (fun k => day + Z.of_nat k) (seq 0 count).

(** How many cells a row of [n] cells lacks to end a week. *)
Definition week_gap (n : nat) : nat := ((7 - n mod 7) mod 7)%nat.


End Grid.

(** ** The time zone of the host

    [new Date(year, month, day)] is local midnight of that day in the time
    zone of the host.  Where the zone has no such day (Pacific/Apia went
    from 29 to 31 December 2011) the local time does not exist and the
    constructor gives the day on which the clock resumes.  A [zone] says,
    for each day of the calendar, the day the constructor gives for it;
    [civil] has every day.  The builder of [Grid] is the builder below in
    [civil]. *)
Module Host.
Import JS Grid.

Definition zone : Type := Date.t -> Date.t.

Definition civil : zone := fun day => day.

(** Pacific/Apia, which skipped 30 December 2011. *)
Definition apia : zone := fun day =>
  if (Date.getFullYear day =? 2011) && (Date.getMonth day =? 11)
     && (Date.getDate day =? 30)
  then Date.mk 2011 11 31
  else day.

Definition new_Date (z : zone) (year month day : Z) : Date.t :=
  z (Date.new_Date year month day).

(** [today] (lines 16-19). *)
Definition today (z : zone) (now : Date.t) : Date.t :=
  new_Date z (Date.getFullYear now) (Date.getMonth now) (Date.getDate now).

Definition day_cell (z : zone) (today : Date.t) (year monthIndex day : Z) : cell :=
  let currentDate := new_Date z year monthIndex day in
  {| key := formatISODate currentDate;
     label := day;
     isToday := day =? Date.getDate today |}.

(** Lines 40-47. *)
Equations? push_days (z : zone) (today : Date.t) (year monthIndex day daysInMonth : Z)
  (cells : list (option cell))
  : list (option cell) by wf (Z.to_nat (daysInMonth + 1 - day)) lt :=
  push_days z today year monthIndex day daysInMonth cells
    with Z_le_dec day daysInMonth => {
    | left _ =>
        push_days z today year monthIndex (day + 1) daysInMonth
          (cells ++ [Some (day_cell z today year monthIndex day)])%list;
    | right _ => cells }.
Proof. lia. Qed.

(** [calendar] (lines 27-57). *)
Definition calendar (z : zone) (today : Date.t) : month_grid :=
  let year := Date.getFullYear today in
  let monthIndex := Date.getMonth today in
  let firstDay := new_Date z year monthIndex 1 in
  let startWeekday := Date.getDay firstDay in
  let daysInMonth := Date.getDate (new_Date z year (monthIndex + 1) 0) in
  let cells := push_blanks 0 startWeekday [] in
  let cells := push_days z today year monthIndex 1 daysInMonth cells in
  let cells := pad_week cells in
  {| month_label :=
       number_to_string year ++ "년 " ++ number_to_string (monthIndex + 1) ++ "월";
     cells := cells |}.

(** The zone has every day of the month. *)
Definition has_month (z : zone) (year month : Z) : Prop :=
  forall day,
    1 <= day <= Date.days_in_month year month ->
    z (Date.mk year month day) = Date.mk year month day.

End Host.

(** ** Backend responses

    What [resp.json()] resolves to, seen through the properties the
    component reads.  A body that is JSON [null] is [JsonNull]: reading a
    property of it throws.  Any other body is [JsonValue]: a property it
    lacks reads as [VUndefined].  The source fragments ([contexts],
    [sources]) are arrays when they are present, as the interface of the
    backend has them; [None] stands for a missing or [null] one. *)
Module Backend.
Import JS.

Inductive parsed (A : Type) : Type :=
| JsonNull
| JsonValue (body : A).
Arguments JsonNull {A}.
Arguments JsonValue {A} body.

Record rag_data : Type := {
  answer : value;
  result : value;
  contexts : option (list value);
  sources : option (list value);
  intent : value
}.

Record events_data : Type := { events : value }.

(** How an awaited promise settles: [fetch] rejects or resolves to a
    response with a status; [resp.json()] rejects or resolves to the parsed
    body. *)
Inductive settlement : Type :=
| FetchFailed
| FetchResponse (status : Z)
| JsonFailed
| RagBody (data : parsed rag_data)
| EventsBody (data : parsed events_data).

(** [resp.ok]. *)
Definition ok (status : Z) : bool := (200 <=? status) && (status <=? 299).

End Backend.

(** ** The chat session and the event store ([App], lines 21-25 and 59-150) *)
Module Chat.
Import JS Backend.

Inductive role : Type := user | agent.

Record message : Type := {
  id : string;
  msg_role : role;
  name : string;
  content : value;
  variant : option string
}.

(** The component state: [messages], [question], [loading],
    [calendarEvents]. *)
Record state : Type := {
  messages : list message;
  question : string;
  loading : bool;
  calendarEvents : value
}.

Definition setMessages (f : list message -> list message) (st : state) : state :=
  {| messages := f (messages st); question := question st;
     loading := loading st; calendarEvents := calendarEvents st |}.

Definition setQuestion (q : string) (st : state) : state :=
  {| messages := messages st; question := q;
     loading := loading st; calendarEvents := calendarEvents st |}.

Definition setLoading (b : bool) (st : state) : state :=
  {| messages := messages st; question := question st;
     loading := b; calendarEvents := calendarEvents st |}.

Definition setCalendarEvents (v : value) (st : state) : state :=
  {| messages := messages st; question := question st;
     loading := loading st; calendarEvents := v |}.

(** What a step does to the world outside the state: the request of lines
    98-104 with the body [{query}], the request of line 64 (always with
    [limit=10]), a call of [console.error]. *)
Inductive effect : Type :=
| PostRagQuery (query : string)
| GetCalendarEvents
| ConsoleError.

(** *** Decoration of an answer (lines 111-123) *)

Definition fallbackAnswer : string := "응답을 가져오지 못했어요.".

(** The suffix of line 121 for a page already printed. *)
Definition citation (pageInfo : string) : string :=
  LF ++ LF ++ "(참고: p." ++ pageInfo ++ " 등 매뉴얼 내용 기반)".

Definition answerText (data : rag_data) : value :=
  coalesce (coalesce (answer data) (result data)) (VStr fallbackAnswer).

Definition resolved_sources (data : rag_data) : list value :=
  match contexts data with
  | Some l => l
  | None => match sources data with
            | Some l => l
            | None => []
            end
  end.

Definition resolved_intent (data : rag_data) : value :=
  coalesce (intent data) (VStr "rag").

(** [intent === 'reminder']. *)
Definition isReminder (data : rag_data) : bool :=
  match resolved_intent data with
  | VStr s => (s =? "reminder")%string
  | _ => false
  end.

(** [first.page ?? first.page_number]. *)
Definition pageInfo (first : value) : completion value :=
  p <- get first page ;;
  if nullish p then get first page_number else Normal p.

Record decorated : Type := { decoratedAnswer : value; reminder : bool }.

Definition interpret (body : parsed rag_data) : completion decorated :=
  match body with
  | JsonNull => Throw TypeError
  | JsonValue data =>
      let sources := resolved_sources data in
      decoratedAnswer <-
        (if negb (isReminder data) && (0 <? List.length sources)%nat then
           let first := nth 0 sources VUndefined in
           info <- pageInfo first ;;
           if truthy info then
             printed <- to_string info ;;
             text <- to_string (answerText data) ;;
             Normal (VStr (text ++ citation printed))
           else Normal (answerText data)
         else Normal (answerText data)) ;;
      Normal {| decoratedAnswer := decoratedAnswer; reminder := isReminder data |}
  end.

(** *** Messages (lines 86-91, 125-131, 139-145) *)

Definition userMessage (now : Z) (trimmed : string) : message :=
  {| id := "user-" ++ number_to_string now;
     msg_role := user;
     name := "나";
     content := VStr trimmed;
     variant := None |}.

Definition agentMessage (now : Z) (d : decorated) : message :=
  {| id := "agent-" ++ number_to_string now;
     msg_role := agent;
     name := "Mindual";
     content := decoratedAnswer d;
     variant := if reminder d then Some "reminder" else None |}.

Definition failureText : string :=
  "죄송해요, RAG 서버에 연결하는 데 문제가 발생했습니다." ++ LF
  ++ "서버 상태를 확인한 후 다시 시도해 주세요.".

Definition failureMessage (now : Z) : message :=
  {| id := "agent-" ++ number_to_string now;
     msg_role := agent;
     name := "Mindual";
     content := VStr failureText;
     variant := None |}.

(** *** Suspension points

    An asynchronous function in flight waits at one of its [await]s. *)
Inductive events_point : Type :=
| EventsFetch      (* line 64 *)
| EventsJson.      (* line 68 *)

Inductive submit_point : Type :=
| RagFetch                      (* line 98 *)
| RagJson                       (* line 110 *)
| Refresh (p : events_point).   (* line 135, inside fetchEvents *)

Inductive task : Type :=
| Submitting (p : submit_point)   (* a call of handleSubmit *)
| Refreshing (p : events_point).  (* the call of fetchEvents of line 78 *)

(** The outcome of resuming a function: the state it leaves, what it did,
    and where it waits next ([None] when it has returned). *)
Definition resumed (P : Type) : Type := state * list effect * option P.

(** [fetchEvents] (lines 62-74), resumed at [p] by the settlement [s];
    [None] when [s] is not what [p] awaits. *)
Definition fetchEvents_catch (st : state) : resumed events_point :=
  (setCalendarEvents (VArr []) st, [ConsoleError], None).

Definition fetchEvents_resume (p : events_point) (s : settlement) (st : state)
  : option (resumed events_point) :=
  match p, s with
  | EventsFetch, FetchFailed => Some (fetchEvents_catch st)
  | EventsFetch, FetchResponse status =>
      if ok status then Some (st, [], Some EventsJson)
      else Some (fetchEvents_catch st)
  | EventsJson, JsonFailed => Some (fetchEvents_catch st)
  | EventsJson, EventsBody JsonNull => Some (fetchEvents_catch st)
  | EventsJson, EventsBody (JsonValue data) =>
      Some (setCalendarEvents (or_else (events data) (VArr [])) st, [], None)
  | _, _ => None
  end.

(** The [catch] and [finally] blocks of [handleSubmit] (lines 137-149). *)
Definition handleSubmit_finally (st : state) : state := setLoading false st.

Definition handleSubmit_catch (now : Z) (st : state) : resumed submit_point :=
  (handleSubmit_finally
     (setMessages (fun prev => prev ++ [failureMessage now])%list st),
   [ConsoleError], None).

(** [handleSubmit] resumed at [p] by the settlement [s], the clock reading
    [now] when it resumes. *)
Definition handleSubmit_resume (p : submit_point) (s : settlement) (now : Z)
  (st : state) : option (resumed submit_point) :=
  match p, s with
  | RagFetch, FetchFailed => Some (handleSubmit_catch now st)
  | RagFetch, FetchResponse status =>
      if ok status then Some (st, [], Some RagJson)
      else Some (handleSubmit_catch now st)
  | RagJson, JsonFailed => Some (handleSubmit_catch now st)
  | RagJson, RagBody body =>
      match interpret body with
      | Throw _ => Some (handleSubmit_catch now st)
      | Normal d =>
          let st1 := setMessages (fun prev => prev ++ [agentMessage now d])%list st in
          if reminder d
          then Some (st1, [GetCalendarEvents], Some (Refresh EventsFetch))
          else Some (handleSubmit_finally st1, [], None)
      end
  | Refresh q, _ =>
      match fetchEvents_resume q s st with
      | None => None
      | Some (st1, done, Some q') => Some (st1, done, Some (Refresh q'))
      | Some (st1, done, None) => Some (handleSubmit_finally st1, done, None)
      end
  | _, _ => None
  end.

(** *** The component as a transition system

    A configuration is the state with the asynchronous calls in flight.
    An event handler runs on the state of the last commit. *)
Record config : Type := { st : state; tasks : list task }.

Inductive event : Type :=
| Change (text : string)                    (* onChange of the textarea *)
| Submit (now : Z)                          (* onSubmit of the form *)
| Settle (i : nat) (s : settlement) (now : Z).  (* the promise task i awaits *)

(** [handleSubmit] up to its first [await] (lines 81-104). *)
Definition handleSubmit (now : Z) (c : config) : config * list effect :=
  let trimmed := trim (question (st c)) in
  if (trimmed =? "")%string || loading (st c) then (c, [])
  else
    let st1 := setMessages (fun prev => prev ++ [userMessage now trimmed])%list (st c) in
    let st2 := setQuestion "" st1 in
    let st3 := setLoading true st2 in
    ({| st := st3; tasks := (tasks c ++ [Submitting RagFetch])%list |},
     [PostRagQuery trimmed]).

Fixpoint replace_task (i : nat) (t : option task) (l : list task) : list task :=
  match l, i with
  | [], _ => []
  | _ :: rest, O => match t with Some t' => t' :: rest | None => rest end
  | x :: rest, S j => x :: replace_task j t rest
  end.

Definition resume (t : task) (s : settlement) (now : Z) (st : state)
  : option (state * list effect * option task) :=
  match t with
  | Submitting p =>
      match handleSubmit_resume p s now st with
      | Some (st1, done, next) => Some (st1, done, option_map Submitting next)
      | None => None
      end
  | Refreshing p =>
      match fetchEvents_resume p s st with
      | Some (st1, done, next) => Some (st1, done, option_map Refreshing next)
      | None => None
      end
  end.

(** One step; [None] when the event cannot happen in the configuration
    (the textarea is disabled while [loading]; a settlement needs a task
    that awaits it). *)
Definition step (c : config) (e : event) : option (config * list effect) :=
  match e with
  | Change text =>
      if loading (st c) then None
      else Some ({| st := setQuestion text (st c); tasks := tasks c |}, [])
  | Submit now => Some (handleSubmit now c)
  | Settle i s now =>
      match nth_error (tasks c) i with
      | None => None
      | Some t =>
          match resume t s now (st c) with
          | None => None
          | Some (st1, done, next) =>
              Some ({| st := st1; tasks := replace_task i next (tasks c) |}, done)
          end
      end
  end.

Fixpoint run (c : config) (es : list event) : option (config * list effect) :=
  match es with
  | [] => Some (c, [])
  | e :: rest =>
      match step c e with
      | None => None
      | Some (c1, done1) =>
          match run c1 rest with
          | None => None
          | Some (c2, done2) => Some (c2, (done1 ++ done2)%list)
          end
      end
  end.

(** The component after mounting: the initial state (lines 21-25, 59) and
    the call of [fetchEvents] by the effect of lines 77-79. *)
Definition initial_state : state :=
  {| messages := []; question := ""; loading := false; calendarEvents := VArr [] |}.

Definition mounted : config :=
  {| st := initial_state; tasks := [Refreshing EventsFetch] |}.

(** *** Whole exchanges

    A whole exchange with a backend: no response arrives, or one arrives
    with a status and a body that parses ([Some]) or does not ([None]).
    The body of a response that is not [ok] is never read. *)
Inductive exchange (A : Type) : Type :=
| NoResponse
| Responded (status : Z) (body : option (parsed A)).
Arguments NoResponse {A}.
Arguments Responded {A} status body.

Definition settlements {A} (as_body : parsed A -> settlement) (x : exchange A)
  : list settlement :=
  match x with
  | NoResponse => [FetchFailed]
  | Responded status body =>
      FetchResponse status ::
      (if ok status
       then [match body with Some b => as_body b | None => JsonFailed end]
       else [])
  end.

(** [fetchEvents] from its call to its return, the exchange with the
    calendar backend given. *)
Fixpoint fetchEvents_settle (p : events_point) (ss : list settlement) (st : state)
  : option (state * list effect) :=
  match ss with
  | [] => None
  | s :: rest =>
      match fetchEvents_resume p s st with
      | None => None
      | Some (st1, done, None) =>
          match rest with [] => Some (st1, done) | _ :: _ => None end
      | Some (st1, done, Some p1) =>
          match fetchEvents_settle p1 rest st1 with
          | Some (st2, done2) => Some (st2, (done ++ done2)%list)
          | None => None
          end
      end
  end.

Definition fetchEvents (x : exchange events_data) (st : state)
  : option (state * list effect) :=
  match fetchEvents_settle EventsFetch (settlements EventsBody x) st with
  | Some (st1, done) => Some (st1, GetCalendarEvents :: done)
  | None => None
  end.

(** [fetchEvents] ends in its [catch] block (lines 70-73): no response
    arrives and the fetch rejects, the status is not [ok] and line 66
    throws, the body is not JSON and [resp.json()] rejects, or the body is
    [null] and reading [data.events] throws.  Nothing else is caught: line
    69 looks at no other property of the body. *)
Definition caught (x : exchange events_data) : bool :=
  match x with
  | NoResponse => true
  | Responded status body =>
      negb (ok status)
      || match body with
         | None | Some JsonNull => true
         | Some (JsonValue _) => false
         end
  end.

(** Whether the turn that receives [x] calls [fetchEvents] (line 134). *)
Definition refreshes (x : exchange rag_data) : bool :=
  match x with
  | Responded status (Some body) =>
      ok status && match interpret body with
                   | Normal d => reminder d
                   | Throw _ => false
                   end
  | _ => false
  end.

(** The events of one turn of the call that becomes task [i]: the submit at
    [now1], then the settlements it awaits, resumed at [now2]. *)
Definition turn (i : nat) (now1 now2 : Z) (rag : exchange rag_data)
  (cal : exchange events_data) : list event :=
  Submit now1 ::
  map (fun s => Settle i s now2)
    (settlements RagBody rag
     ++ (if refreshes rag then settlements EventsBody cal else []))%list.

(** The reply a turn with the exchange [rag] appends. *)
Definition reply (now : Z) (rag : exchange rag_data) : message :=
  match rag with
  | Responded status (Some body) =>
      if ok status
      then match interpret body with
           | Normal d => agentMessage now d
           | Throw _ => failureMessage now
           end
      else failureMessage now
  | _ => failureMessage now
  end.

(** What the store holds after the exchange [x]. *)
Definition held (x : exchange events_data) : value :=
  match x with
  | Responded status (Some (JsonValue data)) =>
      if ok status then or_else (events data) (VArr []) else VArr []
  | _ => VArr []
  end.

Definition is_refresh (e : effect) : bool :=
  match e with GetCalendarEvents => true | _ => false end.

(** How often a run called the calendar backend. *)
Definition refresh_calls (done : list effect) : nat :=
  List.length (filter is_refresh done).

Definition is_submitting (t : task) : bool :=
  match t with Submitting _ => true | Refreshing _ => false end.

(** The calls of [handleSubmit] in flight. *)
Definition in_flight (c : config) : nat :=
  List.length (filter is_submitting (tasks c)).

Definition Idle (c : config) : Prop := loading (st c) = false /\ in_flight c = 0%nat.
Definition Sending (c : config) : Prop := loading (st c) = true /\ in_flight c = 1%nat.

Definition reachable (c : config) : Prop :=
  exists es done, run mounted es = Some (c, done).

Definition id_prefix (r : role) : string :=
  match r with user => "user-" | agent => "agent-" end.

(** The id of a message of the role and with the reading of [Date.now()]
    given (lines 87, 126, 140). *)
Definition stamp (reading : role * Z) : string :=
  id_prefix (fst reading) ++ number_to_string (snd reading).

(** Whether [handleSubmit], resumed at [p] by [s], calls [Date.now()]: for
    the reply once the body is there (line 126) and for the apology in the
    [catch] block (line 140).  It reads no clock when the headers of an ok
    response arrive, nor while it awaits the refresh. *)
Definition reads_clock (p : submit_point) (s : settlement) : bool :=
  match p, s with
  | RagFetch, FetchFailed => true
  | RagFetch, FetchResponse status => negb (ok status)
  | RagJson, JsonFailed => true
  | RagJson, RagBody _ => true
  | _, _ => false
  end.

(** The calls of [Date.now()] in the step of [c] by [e], each with the role
    of the message it stamps and the reading it returns: one by a submit
    that line 84 lets through (line 87), one by a settlement that resumes
    [handleSubmit] where [reads_clock] says.  [fetchEvents], a change of the
    draft and a rejected submit read no clock. *)
Definition readings (c : config) (e : event) : list (role * Z) :=
  match e with
  | Change _ => []
  | Submit now =>
      if (trim (question (st c)) =? "")%string || loading (st c) then []
      else [(user, now)]
  | Settle i s now =>
      match nth_error (tasks c) i with
      | Some (Submitting p) => if reads_clock p s then [(agent, now)] else []
      | _ => []
      end
  end.

(** The calls of [Date.now()] over a run, in order. *)
Fixpoint clock_trace (c : config) (es : list event) : list (role * Z) :=
  match es with
  | [] => []
  | e :: rest =>
      match step c e with
      | Some (c1, _) => (readings c e ++ clock_trace c1 rest)%list
      | None => []
      end
  end.

End Chat.

(** ** Sample responses *)
Module Samples.
Import JS Backend Chat.

(** [{answer: "X", intent: "reminder"}] *)
Definition reminder_response : rag_data :=
  {| answer := VStr "X"; result := VUndefined; contexts := None;
     sources := None; intent := VStr "reminder" |}.

(** [{result: "Y", contexts: [{page: 12}]}] *)
Definition cited_response : rag_data :=
  {| answer := VUndefined; result := VStr "Y";
     contexts := Some [VObj [("page", VNum 12)]];
     sources := None; intent := VUndefined |}.

(** [{}] *)
Definition empty_response : rag_data :=
  {| answer := VUndefined; result := VUndefined; contexts := None;
     sources := None; intent := VUndefined |}.

(** [{result: "Y", contexts: [{page: 0}]}] *)
Definition page_zero_response : rag_data :=
  {| answer := VUndefined; result := VStr "Y";
     contexts := Some [VObj [("page", VNum 0)]];
     sources := None; intent := VUndefined |}.

(** [{result: "Y", contexts: [{}, {page: 3}]}] *)
Definition later_page_response : rag_data :=
  {| answer := VUndefined; result := VStr "Y";
     contexts := Some [VObj []; VObj [("page", VNum 3)]];
     sources := None; intent := VUndefined |}.

(** [{contexts: [null]}] *)
Definition null_fragment_response : rag_data :=
  {| answer := VUndefined; result := VUndefined;
     contexts := Some [VNull];
     sources := None; intent := VUndefined |}.

(** A question typed into the mounted component. *)
Definition asked (q : string) : config :=
  {| st := setQuestion q initial_state; tasks := tasks mounted |}.

(** Two turns that fail at once, every clock reading the same. *)
Definition two_turns_one_reading : list event :=
  [Change "a"; Submit 5; Settle 1 FetchFailed 5;
   Change "b"; Submit 5; Settle 1 FetchFailed 5].

(** A turn up to the reminder reply: the refresh is still awaited. *)
Definition reminder_turn_before_refresh : list event :=
  [Change "test"; Submit 1; Settle 1 (FetchResponse 200) 2;
   Settle 1 (RagBody (JsonValue reminder_response)) 3].

(** A turn that is answered: the clock is read by the submit and again
    when the body is there; the arrival of the headers reads none. *)
Definition answered_turn : list event :=
  [Change "a"; Submit 5; Settle 1 (FetchResponse 200) 5;
   Settle 1 (RagBody (JsonValue cited_response)) 6].

(** [{events: "oops"}] *)
Definition misshapen_events : events_data := {| events := VStr "oops" |}.

(** A store that holds an event. *)
Definition holding_an_event : state :=
  setCalendarEvents (VArr [VObj [("id", VNum 1); ("date", VStr "2026-11-02")]])
    initial_state.

End Samples.

(** ** The view ([App], lines 152-352)

    What the returned markup computes from the state: per message its row
    class, whether the knowledge-base tag is shown and the lines of its
    text; per cell of the month grid its React key, its class and whether
    it carries the event dot. *)
Module View.
Import JS Backend Chat Grid.

Definition role_name (r : role) : string :=
  match r with user => "user" | agent => "agent" end.

(** Line 180. *)
Definition row_class (m : message) : string :=
  "chat-row " ++ role_name (msg_role m) ++ " "
  ++ match variant m with Some v => v | None => "" end.

(** Line 188: [message.role === 'agent' && message.variant !== 'reminder']. *)
Definition shows_source (m : message) : bool :=
  match msg_role m with
  | agent => match variant m with
             | Some v => negb (v =? "reminder")%string
             | None => true
             end
  | user => false
  end.

(** [text.split('\n')]: the line feed is the byte 10 and no other character
    of a text holds that byte. *)
Fixpoint split_lines (s : string) : list string :=
  match s with
  | EmptyString => [""]
  | String c rest =>
      if (c =? ascii_of_nat 10)%char then "" :: split_lines rest
      else match split_lines rest with
           | line :: more => String c line :: more
           | [] => [String c ""]
           end
  end.

(** Line 193: [message.content.split], which only a string has. *)
Definition content_lines (m : message) : completion (list string) :=
  match content m with
  | VStr s => Normal (split_lines s)
  | _ => Throw TypeError
  end.

(** [event.date] on an item of the store. *)
Definition event_date (event : value) : completion value :=
  match event with
  | VUndefined | VNull => Throw TypeError
  | VObj props =>
      Normal (match own props "date" with
              | Some x => x
              | None => VUndefined
              end)
  | _ => Normal VUndefined
  end.

(** Line 311: [event.date === cell.key]. *)
Definition on_day (c : cell) (event : value) : completion bool :=
  d <- event_date event ;;
  Normal (match d with
          | VStr s => (s =? key c)%string
          | _ => false
          end).

(** [items.filter(test)], the test running on every item in order. *)
Fixpoint filter_items (test : value -> completion bool) (items : list value)
  : completion (list value) :=
  match items with
  | [] => Normal []
  | item :: rest =>
      keep <- test item ;;
      kept <- filter_items test rest ;;
      Normal (if keep then item :: kept else kept)
  end.

(** Lines 310-312: [calendarEvents.filter], which only an array has. *)
Definition dailyEvents (calendarEvents : value) (c : cell)
  : completion (list value) :=
  match calendarEvents with
  | VArr items => filter_items (on_day c) items
  | _ => Throw TypeError
  end.

(** The React key of the cell at [index] (lines 307 and 316). *)
Definition react_key (index : nat) (c : option cell) : string :=
  match c with
  | None => "empty-" ++ number_to_string (Z.of_nat index)
  | Some c => key c
  end.

Record cell_view : Type := {
  view_key : string;
  className : string;
  day_number : option Z;
  event_dot : bool
}.

(** Lines 305-325, one cell. *)
Definition render_cell (calendarEvents : value) (index : nat) (c : option cell)
  : completion cell_view :=
  match c with
  | None =>
      Normal {| view_key := react_key index c;
                className := "calendar-cell empty";
                day_number := None;
                event_dot := false |}
  | Some day =>
      dailyEvents <- dailyEvents calendarEvents day ;;
      let some := (0 <? List.length dailyEvents)%nat in
      Normal {| view_key := react_key index c;
                className := "calendar-cell "
                             ++ (if isToday day then "today" else "") ++ " "
                             ++ (if some then "has-event" else "");
                day_number := Some (label day);
                event_dot := some |}
  end.

(** [cells.map((cell, index) => ...)] from [index] on. *)
Fixpoint render_cells (calendarEvents : value) (index : nat)
  (cells : list (option cell)) : completion (list cell_view) :=
  match cells with
  | [] => Normal []
  | c :: rest =>
      v <- render_cell calendarEvents index c ;;
      vs <- render_cells calendarEvents (S index) rest ;;
      Normal (v :: vs)
  end.

Definition render_grid (calendarEvents : value) (grid : month_grid)
  : completion (list cell_view) :=
  render_cells calendarEvents 0 (cells grid).

(** The React keys of the cells from [index] on. *)
Fixpoint react_keys (index : nat) (cells : list (option cell)) : list string :=
  match cells with
  | [] => []
  | c :: rest => react_key index c :: react_keys (S index) rest
  end.

(** [event.date.slice(5)] (line 334) on a text of ASCII characters. *)
Definition slice5 (s : string) : string :=
  String.substring 5 (String.length s - 5) s.

(** [event[name]] on an item of the store, for the names the event list
    reads: [id], [date], [time], [title], [location]. *)
Definition event_field (name : string) (event : value) : completion value :=
  match event with
  | VUndefined | VNull => Throw TypeError
  | VObj props =>
      Normal (match own props name with
              | Some x => x
              | None => VUndefined
              end)
  | _ => Normal VUndefined
  end.

(** [date.slice(5)] (line 334): a text and an array have a [slice], nothing
    else that a body holds has one. *)
Definition date_slice (date : value) : completion value :=
  match date with
  | VStr s => Normal (VStr (slice5 s))
  | VArr items => Normal (VArr (skipn 5 items))
  | _ => Throw TypeError
  end.

Record event_row : Type := {
  row_key : value;
  row_date : value;
  row_time : value;
  row_title : value;
  row_location : value
}.

(** Lines 332-340, one event. *)
Definition render_event (event : value) : completion event_row :=
  k <- event_field "id" event ;;
  date <- event_field "date" event ;;
  sliced <- date_slice date ;;
  time <- event_field "time" event ;;
  title <- event_field "title" event ;;
  location <- event_field "location" event ;;
  Normal {| row_key := k; row_date := sliced; row_time := time;
            row_title := title; row_location := location |}.

Fixpoint render_items (items : list value) : completion (list event_row) :=
  match items with
  | [] => Normal []
  | item :: rest =>
      row <- render_event item ;;
      rows <- render_items rest ;;
      Normal (row :: rows)
  end.

(** Lines 331-341: [calendarEvents.map], which only an array has. *)
Definition render_events (calendarEvents : value) : completion (list event_row) :=
  match calendarEvents with
  | VArr items => render_items items
  | _ => Throw TypeError
  end.

(** A child React shows as text or as nothing: a text, a number, a
    boolean, [null], [undefined].  React refuses an object as a child; an
    array of children is not counted here. *)
Definition displayable (v : value) : bool :=
  match v with
  | VObj _ | VArr _ => false
  | _ => true
  end.

Definition row_displayable (row : event_row) : bool :=
  displayable (row_key row) && displayable (row_date row)
  && displayable (row_time row) && displayable (row_title row)
  && displayable (row_location row).

(** An event as the calendar backend documents it: an object whose [date]
    is a text and whose [id], [time], [title] and [location], where it has
    them, are displayable. *)
Definition dated (event : value) : bool :=
  match event with
  | VObj props =>
      match own props "date" with
      | Some (VStr _) => true
      | _ => false
      end
      && forallb (fun name => match own props name with
                              | Some v => displayable v
                              | None => true
                              end)
           ["id"; "time"; "title"; "location"]
  | _ => false
  end.

(** A store the calendar card can show: a list of dated events. *)
Definition listable (store : value) : bool :=
  match store with
  | VArr items => forallb dated items
  | _ => false
  end.

(** The markup of the state is computed without a throw: the lines of
    every message (line 193), the cells of any grid (lines 305-325) and the
    rows of the event list (lines 331-341), whose children React shows. *)
Definition renders (s : state) : Prop :=
  Forall (fun m => exists lines, content_lines m = Normal lines) (messages s)
  /\ (forall index grid,
        exists views, render_cells (calendarEvents s) index grid = Normal views)
  /\ exists rows,
       render_events (calendarEvents s) = Normal rows
       /\ forallb row_displayable rows = true.

(** The cell of the day [day] of the month of [today], as lines 41-46 build
    it from a date that needs no carrying. *)
Definition shown_day (today : Date.t) (day : Z) : cell :=
  {| key := formatISODate (Date.mk (Date.getFullYear today) (Date.getMonth today) day);
     label := day;
     isToday := day =? Date.getDate today |}.


(** The key of a blank cell (line 307). *)
Definition empty_key (index : nat) : string :=
  ("empty-" ++ number_to_string (Z.of_nat index))%string.

(** The test of line 311 on an item that is neither null nor undefined. *)
Definition is_on_day (c : cell) (event : value) : bool :=
  match on_day c event with
  | Normal b => b
  | Throw _ => false
  end.

Definition is_array (v : value) : bool :=
  match v with VArr _ => true | _ => false end.

(** The last line of a cited answer (line 121). *)
Definition citation_line (pageInfo : string) : string :=
  ("(참고: p." ++ pageInfo ++ " 등 매뉴얼 내용 기반)")%string.

End View.

(** ** Histories

    What a run of the component leaves behind: the requests it posted, the
    messages it added, the roles of the messages in order. *)
Module History.
Import JS Backend Chat.
Local Open Scope list_scope.

(** The message holds a text. *)
Definition textual (m : message) : Prop := exists s, content m = VStr s.

(** The answer a RAG body carries, when it carries one, is a text. *)
Definition string_answer (e : event) : Prop :=
  match e with
  | Settle _ (RagBody (JsonValue data)) _ => exists s, answerText data = VStr s
  | _ => True
  end.

(** The questions posted to the RAG backend, in order. *)
Definition posted (done : list effect) : list string :=
  flat_map (fun e => match e with PostRagQuery q => [q] | _ => [] end) done.

Definition is_user (m : message) : bool :=
  match msg_role m with user => true | agent => false end.

(** The reply carries the variant of line 130. *)
Definition is_reminder_reply (m : message) : bool :=
  match variant m with
  | Some v => (v =? "reminder")%string
  | None => false
  end.

(** The messages [c1] holds beyond those of [c]. *)
Definition added (c c1 : config) : list message :=
  skipn (List.length (messages (st c))) (messages (st c1)).

(** [new] extends [old]; the questions posted are the texts of the user
    messages added, and the calendar was called once per reminder reply
    added. *)
Definition ledger (old new : list message) (done : list effect) : Prop :=
  let more := skipn (List.length old) new in
  new = old ++ more
  /\ map VStr (posted done) = map content (filter is_user more)
  /\ refresh_calls done = List.length (filter is_reminder_reply more).

(** [n] completed turns: a question, then its reply. *)
Fixpoint turns (n : nat) : list role :=
  match n with
  | O => []
  | S k => user :: agent :: turns k
  end.

Definition answered (roles : list role) : Prop := exists n, roles = turns n.

Definition awaiting (roles : list role) : Prop := exists n, roles = turns n ++ [user].

Definition roles (s : state) : list role := map msg_role (messages s).

(** What the history looks like while [handleSubmit] waits at [p]. *)
Definition expects (p : submit_point) : list role -> Prop :=
  match p with
  | Refresh _ => answered
  | _ => awaiting
  end.

Definition dialogue (c : config) : Prop :=
  match filter is_submitting (tasks c) with
  | [] => loading (st c) = false /\ answered (roles (st c))
  | [Submitting p] =>
      loading (st c) = true /\ question (st c) = "" /\ expects p (roles (st c))
  | _ => False
  end.

(** The exchange with the RAG backend ends in the catch block of line 137. *)
Definition breaks (rag : exchange rag_data) : bool :=
  match rag with
  | NoResponse => true
  | Responded status body =>
      negb (ok status)
      || match body with
         | None => true
         | Some b => match interpret b with
                     | Throw _ => true
                     | Normal _ => false
                     end
         end
  end.

(** A question is typed and submitted while the fetch of the mount effect
    is still in flight, and a reminder reply arrives. *)
Definition reminder_arrives (q : string) (now1 now2 status : Z) (data : rag_data)
  : list event :=
  [Change q; Submit now1; Settle 1 (FetchResponse status) now2;
   Settle 1 (RagBody (JsonValue data)) now2].

(** The settlements of the calendar exchange [x], delivered to task [i]. *)
Definition settles (i : nat) (now : Z) (x : exchange events_data) : list event :=
  map (fun s => Settle i s now) (settlements EventsBody x).

(** The body of a calendar response, when the event is one, gives a store
    the calendar card can show. *)
Definition listed_body (e : event) : Prop :=
  match e with
  | Settle _ (EventsBody (JsonValue data)) _ =>
      View.listable (or_else (events data) (VArr [])) = true
  | _ => True
  end.

(** The state holds texts as messages and a store the card can show. *)
Definition presentable (s : state) : Prop :=
  Forall textual (messages s) /\ View.listable (calendarEvents s) = true.

(** The configurations a run goes through, the first and the last
    included; the run ends where an event has no step. *)
Fixpoint visited (c : config) (es : list event) : list config :=
  c :: match es with
       | [] => []
       | e :: rest =>
           match step c e with
           | Some (c1, _) => visited c1 rest
           | None => []
           end
       end.

End History.

(** * Properties *)

(** ** Values *)
Section Values.
Import JS.

Lemma coalesce_nullish (a b : value) : nullish a = true -> coalesce a b = b.
Proof. unfold coalesce. intros ->. reflexivity. Qed.

Lemma coalesce_value (a b : value) : nullish a = false -> coalesce a b = a.
Proof. unfold coalesce. intros ->. reflexivity. Qed.

Lemma nullish_not_truthy (v : value) : nullish v = true -> truthy v = false.
Proof. destruct v; cbn; congruence. Qed.

Lemma get_throws (v : value) (p : property) :
  get v p = Throw TypeError <-> nullish v = true.
Proof. destruct v; cbn; split; congruence. Qed.

Lemma get_total (v : value) (p : property) :
  nullish v = false -> exists x, get v p = Normal x.
Proof. destruct v; cbn; intros H; try discriminate; eauto. Qed.

Example trim_blank : trim "   " = "".
Proof. reflexivity. Qed.

Example trim_ideographic_space : trim (" 질문　" ++ LF) = "질문".
Proof. reflexivity. Qed.

Example to_string_array :
  to_string (VArr [VNum 12; VNull; VStr "a"; VArr [VNum (-3)]]) = Normal "12,,a,-3".
Proof. reflexivity. Qed.

End Values.

(** ** ResponseInterpreter *)
Section Interpreter.
Import JS Backend Chat Samples.

Lemma pageInfo_throws (first : value) :
  pageInfo first = Throw TypeError <-> nullish first = true.
Proof.
  unfold pageInfo. destruct first; cbn; try (split; congruence).
  destruct (own props "page") as [x|]; cbn.
  - destruct (nullish x); split; congruence.
  - split; congruence.
Qed.

(** The spec's three examples, on the code. *)
Example interpret_reminder :
  interpret (JsonValue reminder_response)
  = Normal {| decoratedAnswer := VStr "X"; reminder := true |}.
Proof. reflexivity. Qed.

Example interpret_cited :
  interpret (JsonValue cited_response)
  = Normal {| decoratedAnswer := VStr ("Y" ++ LF ++ LF ++ "(참고: p.12 등 매뉴얼 내용 기반)");
              reminder := false |}.
Proof. reflexivity. Qed.

Example interpret_empty :
  interpret (JsonValue empty_response)
  = Normal {| decoratedAnswer := VStr "응답을 가져오지 못했어요."; reminder := false |}.
Proof. reflexivity. Qed.

(** C2, as stated, fails: [{result: "Y", contexts: [{page: 0}]}] is not a
    reminder and has a source fragment whose [page] field is present, and
    the text shown is the bare answer, with no citation. *)
Lemma C2_page_zero_not_cited :
  isReminder page_zero_response = false
  /\ Exists (fun fragment => get fragment page = Normal (VNum 0))
       (resolved_sources page_zero_response)
  /\ interpret (JsonValue page_zero_response)
     = Normal {| decoratedAnswer := VStr "Y"; reminder := false |}.
Proof.
  split; [reflexivity|]. split; [|reflexivity].
  constructor. reflexivity.
Qed.

(** C2, amended: whenever the interpreter returns, [isReminder] is true
    exactly when the intent is the string "reminder"; the text of a reminder
    is the answer as it came; the text of any other response is the answer
    followed by the citation of line 121 when the first source fragment's
    [page ?? page_number] is truthy, and the answer as it came when there is
    no fragment or that value is falsy. *)
Theorem C2_decoration (data : rag_data) (d : decorated) :
  interpret (JsonValue data) = Normal d ->
  reminder d = isReminder data
  /\ (isReminder data = true <-> resolved_intent data = VStr "reminder")
  /\ (isReminder data = true -> decoratedAnswer d = answerText data)
  /\ (isReminder data = false ->
      match resolved_sources data with
      | [] => decoratedAnswer d = answerText data
      | first :: _ =>
          exists info, pageInfo first = Normal info /\
            if truthy info
            then exists text printed,
                to_string (answerText data) = Normal text /\
                to_string info = Normal printed /\
                decoratedAnswer d = VStr (text ++ citation printed)
            else decoratedAnswer d = answerText data
      end).
Proof.
  intros H. unfold interpret in H.
  assert (Hintent : isReminder data = true <-> resolved_intent data = VStr "reminder").
  { unfold isReminder. destruct (resolved_intent data); try (split; discriminate).
    rewrite String.eqb_eq. split; [intros ->; reflexivity | intros [= ->]; reflexivity]. }
  destruct (isReminder data) eqn:R; cbn in H.
  - injection H as <-. cbn. repeat split; auto; try apply Hintent; discriminate.
  - destruct (resolved_sources data) as [|first rest]; cbn in H.
    + injection H as <-. cbn. repeat split; auto; try apply Hintent; discriminate.
    + destruct (pageInfo first) as [info|] eqn:P; cbn in H; [|discriminate].
      destruct (truthy info) eqn:T; cbn in H.
      * destruct (to_string info) as [printed|] eqn:Hp; cbn in H; [|discriminate].
        destruct (to_string (answerText data)) as [text|] eqn:Ht; cbn in H; [|discriminate].
        injection H as <-. cbn.
        split; [reflexivity|]. split; [exact Hintent|]. split; [discriminate|].
        intros _. exists info. split; [reflexivity|]. rewrite T.
        exists text, printed. auto.
      * injection H as <-. cbn.
        split; [reflexivity|]. split; [exact Hintent|]. split; [discriminate|].
        intros _. exists info. split; [reflexivity|]. rewrite T. reflexivity.
Qed.

Lemma C2_decoration_witness :
  reminder {| decoratedAnswer := VStr ("Y" ++ citation "12"); reminder := false |}
  = isReminder cited_response.
Proof.
  exact (proj1 (C2_decoration cited_response
                  {| decoratedAnswer := VStr ("Y" ++ citation "12"); reminder := false |}
                  eq_refl)).
Defined.

(** C9, as stated, fails: on [{contexts: [null]}] the interpreter throws. *)
Lemma C9_null_fragment_throws :
  interpret (JsonValue null_fragment_response) = Throw TypeError.
Proof. reflexivity. Qed.

(** C9, amended: the interpreter is a function of the response alone and
    has one failure path, a [TypeError]: it is taken exactly when the body
    is JSON [null], or the response is no reminder and its first source
    fragment is [null], or that fragment's truthy page or the answer cannot
    be printed.  When [answer], [result], [contexts], [sources] and [intent]
    are all absent, the sources are empty, the text is the fallback and
    [isReminder] is false. *)
Theorem C9_failure_path_and_fallback :
  (forall body,
      interpret body = Throw TypeError <->
      (body = JsonNull
       \/ exists data first rest,
           body = JsonValue data /\ isReminder data = false /\
           resolved_sources data = first :: rest /\
           (nullish first = true
            \/ exists info, pageInfo first = Normal info /\ truthy info = true /\
                 (to_string info = Throw TypeError
                  \/ to_string (answerText data) = Throw TypeError))))
  /\ (forall data,
        nullish (answer data) = true -> nullish (result data) = true ->
        contexts data = None -> sources data = None ->
        nullish (intent data) = true ->
        resolved_sources data = []
        /\ interpret (JsonValue data)
           = Normal {| decoratedAnswer := VStr fallbackAnswer; reminder := false |}).
Proof.
  split.
  - intros [|data]; cbn.
    + split; auto.
    + split.
      * intros H. right.
        destruct (isReminder data) eqn:R; cbn in H; [discriminate|].
        destruct (resolved_sources data) as [|first rest] eqn:S; cbn in H; [discriminate|].
        exists data, first, rest.
        split; [reflexivity|]. split; [exact R|]. split; [exact S|].
        destruct (pageInfo first) as [info|[]] eqn:P; cbn in H.
        -- right. exists info. split; [reflexivity|].
           destruct (truthy info); cbn in H; [|discriminate].
           split; [reflexivity|].
           destruct (to_string info) as [printed|[]]; cbn in H; [|auto].
           destruct (to_string (answerText data)) as [text|[]]; cbn in H; [discriminate|auto].
        -- left. apply pageInfo_throws. exact P.
      * intros [H|(data' & first & rest & E & R & S & H)]; [discriminate|].
        injection E as <-. rewrite R, S. cbn.
        destruct H as [H|(info & P & T & H)].
        -- apply pageInfo_throws in H. rewrite H. reflexivity.
        -- rewrite P. cbn. rewrite T.
           destruct H as [H|H]; rewrite H; cbn; [reflexivity|].
           destruct (to_string info) as [?|[]]; reflexivity.
  - intros data Ha Hr Hc Hs Hi.
    assert (S : resolved_sources data = []).
    { unfold resolved_sources. rewrite Hc, Hs. reflexivity. }
    split; [exact S|].
    unfold interpret. rewrite S.
    assert (R : isReminder data = false).
    { unfold isReminder, resolved_intent. rewrite coalesce_nullish by exact Hi. reflexivity. }
    rewrite R. cbn. unfold answerText.
    rewrite (coalesce_nullish (answer data)) by exact Ha.
    rewrite coalesce_nullish by exact Hr. reflexivity.
Qed.

Lemma C9_failure_path_and_fallback_witness :
  resolved_sources empty_response = []
  /\ interpret (JsonValue empty_response)
     = Normal {| decoratedAnswer := VStr fallbackAnswer; reminder := false |}.
Proof.
  exact (proj2 C9_failure_path_and_fallback empty_response
           eq_refl eq_refl eq_refl eq_refl eq_refl).
Defined.

(** C10: the first source fragment alone decides the citation.  When the
    response is no reminder and reading [page] and [page_number] of its
    first fragment gives nothing or a falsy value, the text shown is the
    answer as it came, whatever the later fragments hold. *)
Theorem C10_first_fragment_decides (data : rag_data) (first : value)
  (rest : list value) (p n : value) :
  isReminder data = false ->
  resolved_sources data = first :: rest ->
  get first page = Normal p -> truthy p = false ->
  get first page_number = Normal n -> truthy n = false ->
  interpret (JsonValue data)
  = Normal {| decoratedAnswer := answerText data; reminder := false |}.
Proof.
  intros R S Hp Tp Hn Tn. unfold interpret. rewrite R, S. cbn.
  unfold pageInfo. rewrite Hp. cbn.
  destruct (nullish p).
  - rewrite Hn. cbn. rewrite Tn. reflexivity.
  - cbn. rewrite Tp. reflexivity.
Qed.

Lemma C10_first_fragment_decides_witness :
  interpret (JsonValue later_page_response)
  = Normal {| decoratedAnswer := answerText later_page_response; reminder := false |}.
Proof.
  apply (C10_first_fragment_decides later_page_response
           (VObj []) [VObj [("page", VNum 3)]] VUndefined VUndefined);
    reflexivity.
Defined.

End Interpreter.

(** ** Dates *)
Section Dates.

Lemma day_from_year_succ (y : Z) :
  Date.day_from_year (y + 1)
  = Date.day_from_year y + 365 + (if Date.leap y then 1 else 0).
Proof.
  unfold Date.day_from_year, Date.leap.
  destruct (y mod 4 =? 0) eqn:E4; destruct (y mod 100 =? 0) eqn:E100;
    destruct (y mod 400 =? 0) eqn:E400; cbn [andb orb negb];
    rewrite ?Z.eqb_eq, ?Z.eqb_neq in *;
    Z.div_mod_to_equations; lia.
Qed.

Lemma days_before_next_month (y m : Z) :
  0 <= m < 11 ->
  Date.days_before_month y (m + 1)
  = Date.days_before_month y m + Date.days_in_month y m.
Proof.
  intros Hm.
  assert (m = 0 \/ m = 1 \/ m = 2 \/ m = 3 \/ m = 4 \/ m = 5 \/ m = 6 \/ m = 7
          \/ m = 8 \/ m = 9 \/ m = 10) as H by lia.
  unfold Date.days_before_month, Date.days_in_month.
  repeat (destruct H as [-> | H]; [cbn; destruct (Date.leap y); reflexivity|]).
  subst m. cbn. destruct (Date.leap y); reflexivity.
Qed.

(** The day number, and so the week day, moves with the calendar. *)
Lemma day_number_next_day (d : Date.t) :
  Date.valid d ->
  Date.day_number (Date.next_day d) = Date.day_number d + 1.
Proof.
  destruct d as [y m d]. intros (_ & Hm & Hd). cbn in Hm, Hd.
  unfold Date.next_day, Date.day_number. cbn [Date.getDate Date.getFullYear Date.getMonth].
  destruct (d <? Date.days_in_month y m) eqn:E.
  - cbn [Date.getDate Date.getFullYear Date.getMonth]. lia.
  - apply Z.ltb_ge in E. assert (d = Date.days_in_month y m) as -> by lia.
    destruct (m <? 11) eqn:E11; cbn [Date.getDate Date.getFullYear Date.getMonth].
    + apply Z.ltb_lt in E11. rewrite days_before_next_month by lia. lia.
    + apply Z.ltb_ge in E11. assert (m = 11) as -> by lia.
      rewrite day_from_year_succ.
      unfold Date.days_before_month, Date.days_in_month. cbn.
      destruct (Date.leap y); lia.
Qed.

Lemma getDay_next_day (d : Date.t) :
  Date.valid d -> Date.getDay (Date.next_day d) = (Date.getDay d + 1) mod 7.
Proof.
  intros H. unfold Date.getDay. rewrite day_number_next_day by exact H.
  rewrite <- Z.add_assoc, (Z.add_comm 1 4), Z.add_assoc.
  rewrite Z.add_mod_idemp_l by lia. reflexivity.
Qed.

Example getDay_epoch : Date.getDay (Date.mk 1970 0 1) = 4.
Proof. reflexivity. Qed.

End Dates.

(** ** DateGridBuilder *)
Section DateGridBuilder.
Import JS Grid.
Local Open Scope list_scope.

Lemma push_blanks_spec (i n : Z) (acc : list (option cell)) :
  push_blanks i n acc = acc ++ repeat None (Z.to_nat (n - i)).
Proof.
  funelim (push_blanks i n acc).
  - rewrite H. rewrite <- app_assoc. f_equal.
    replace (Z.to_nat (startWeekday - i)) with (S (Z.to_nat (startWeekday - (i + 1)))) by lia.
    reflexivity.
  - replace (Z.to_nat (startWeekday - i)) with 0%nat by lia.
    cbn. rewrite app_nil_r. reflexivity.
Qed.

Lemma days_from_succ day count :
  days_from day (S count) = day :: days_from (day + 1) count.
Proof.
  unfold days_from. cbn [seq map]. rewrite Z.add_0_r. f_equal.
  rewrite <- seq_shift, map_map. apply map_ext. intros k. lia.
Qed.

Lemma push_days_spec (today : Date.t) (y m day dim : Z) (acc : list (option cell)) :
  push_days today y m day dim acc
  = acc ++ map (fun d => Some (day_cell today y m d)) (days_from day (Z.to_nat (dim + 1 - day))).
Proof.
  funelim (push_days today y m day dim acc).
  - rewrite H. rewrite <- app_assoc. f_equal.
    replace (Z.to_nat (daysInMonth + 1 - day)) with (S (Z.to_nat (daysInMonth + 1 - (day + 1)))) by lia.
    rewrite days_from_succ. reflexivity.
  - replace (Z.to_nat (daysInMonth + 1 - day)) with 0%nat by lia.
    cbn. rewrite app_nil_r. reflexivity.
Qed.

Lemma week_gap_step (n : nat) :
  (n mod 7 <> 0 -> week_gap n = S (week_gap (n + 1)))%nat.
Proof.
  intros Hn. unfold week_gap.
  pose proof (Nat.mod_upper_bound n 7 ltac:(lia)) as Hb.
  rewrite (Nat.Div0.add_mod n 1 7).
  remember (n mod 7)%nat as r eqn:Hr. clear Hr.
  do 7 (destruct r as [|r]; [ first [ congruence | reflexivity ] | ]).
  lia.
Qed.


Lemma week_gap_bound (n : nat) : (week_gap n < 7)%nat.
Proof. unfold week_gap. apply Nat.mod_upper_bound. lia. Qed.

Lemma pad_week_spec (acc : list (option cell)) :
  pad_week acc = acc ++ repeat None (week_gap (List.length acc)).
Proof.
  funelim (pad_week acc).
  - unfold week_gap. rewrite e. cbn. rewrite app_nil_r. reflexivity.
  - rewrite H. rewrite <- app_assoc. f_equal. rewrite length_app. cbn [List.length].
    rewrite (week_gap_step (List.length cells0)) by exact n. reflexivity.
Qed.

Lemma full_year_idem (y : Z) : Date.full_year (Date.full_year y) = Date.full_year y.
Proof.
  unfold Date.full_year.
  destruct ((0 <=? y) && (y <=? 99)) eqn:E; [|rewrite E; reflexivity].
  replace ((0 <=? 1900 + y) && (1900 + y <=? 99)) with false; [reflexivity|].
  symmetry. apply andb_false_iff. right. apply Z.leb_gt.
  apply andb_true_iff in E. destruct E as [E _]. apply Z.leb_le in E. lia.
Qed.

Lemma days_in_month_bounds (y m : Z) : 28 <= Date.days_in_month y m <= 31.
Proof.
  unfold Date.days_in_month.
  destruct (m =? 1); [destruct (Date.leap y); lia|].
  destruct ((m =? 3) || (m =? 5) || (m =? 8) || (m =? 10)); lia.
Qed.

Lemma iter_next_day (y m : Z) (k : nat) :
  1 + Z.of_nat k <= Date.days_in_month y m ->
  Nat.iter k Date.next_day (Date.mk y m 1) = Date.mk y m (1 + Z.of_nat k).
Proof.
  induction k as [|k IH]; intros Hk.
  - reflexivity.
  - rewrite Nat.iter_succ, IH by lia.
    unfold Date.next_day. cbn [Date.getDate Date.getFullYear Date.getMonth].
    replace (1 + Z.of_nat k <? Date.days_in_month y m) with true
      by (symmetry; apply Z.ltb_lt; lia).
    f_equal. lia.
Qed.

Lemma new_Date_valid (y m d : Z) :
  0 <= m <= 11 -> 1 <= d <= Date.days_in_month (Date.full_year y) m ->
  Date.new_Date y m d = Date.mk (Date.full_year y) m d.
Proof.
  intros Hm Hd. unfold Date.new_Date.
  replace (1 <=? d) with true by (symmetry; apply Z.leb_le; lia).
  rewrite Z.div_small, Z.mod_small, Z.add_0_r by lia.
  rewrite iter_next_day by lia. f_equal. lia.
Qed.

Lemma new_Date_last_day (y m : Z) :
  0 <= m <= 11 ->
  Date.new_Date y (m + 1) 0
  = Date.mk (Date.full_year y) m (Date.days_in_month (Date.full_year y) m).
Proof.
  intros Hm. unfold Date.new_Date.
  change (1 <=? 0) with false. change (Z.to_nat (1 - 0)) with 1%nat.
  change (Nat.iter 1 Date.prev_day ?d) with (Date.prev_day d).
  unfold Date.prev_day. cbn [Date.getDate Date.getFullYear Date.getMonth].
  change (1 <? 1) with false. cbv iota.
  destruct (Z.eq_dec m 11) as [->|Hne].
  - change ((11 + 1) / 12) with 1. change ((11 + 1) mod 12) with 0.
    change (0 <? 0) with false. cbv iota. f_equal; first [lia | reflexivity].
  - rewrite Z.div_small, Z.mod_small by lia.
    replace (0 <? m + 1) with true by (symmetry; apply Z.ltb_lt; lia).
    rewrite Z.add_0_r. replace (m + 1 - 1) with m by lia. reflexivity.
Qed.

Lemma leap_full_year (y : Z) :
  y <> 0 -> Date.leap (Date.full_year y) = Date.leap y.
Proof.
  intros Hy. unfold Date.full_year.
  destruct ((0 <=? y) && (y <=? 99)) eqn:E; [|reflexivity].
  apply andb_true_iff in E. destruct E as [E1 E2].
  apply Z.leb_le in E1. apply Z.leb_le in E2.
  unfold Date.leap.
  replace ((1900 + y) mod 4) with (y mod 4)
    by (replace (1900 + y) with (y + 475 * 4) by lia; rewrite Z.mod_add by lia; reflexivity).
  replace ((1900 + y) mod 100) with (y mod 100)
    by (replace (1900 + y) with (y + 19 * 100) by lia; rewrite Z.mod_add by lia; reflexivity).
  rewrite (Z.mod_small y 100) by lia.
  replace (y =? 0) with false by (symmetry; apply Z.eqb_neq; exact Hy).
  replace ((1900 + y) mod 400 =? 0) with false.
  2:{ symmetry. apply Z.eqb_neq.
      pose proof (Z.div_mod (1900 + y) 400 ltac:(lia)).
      pose proof (Z.mod_pos_bound (1900 + y) 400 ltac:(lia)). lia. }
  replace (y mod 400 =? 0) with false.
  2:{ symmetry. apply Z.eqb_neq. rewrite Z.mod_small by lia. exact Hy. }
  reflexivity.
Qed.

(** What line 18 builds is a day of the calendar in a year the constructor
    does not move. *)
Lemma today_constructed (now : Date.t) :
  Date.valid now ->
  Date.valid (today now)
  /\ Date.full_year (Date.getFullYear (today now)) = Date.getFullYear (today now).
Proof.
  intros (Hrange & Hm & Hd). unfold today.
  destruct now as [y m d]. cbn [Date.getDate Date.getFullYear Date.getMonth] in *.
  destruct (Z_le_dec d (Date.days_in_month (Date.full_year y) m)) as [Hle|Hgt].
  - rewrite new_Date_valid by lia.
    split; [|cbn; apply full_year_idem].
    repeat split; cbn; try lia;
      unfold Date.full_year; destruct ((0 <=? y) && (y <=? 99)) eqn:E; try lia;
      apply andb_true_iff in E; destruct E as [E1 E2];
      apply Z.leb_le in E1; apply Z.leb_le in E2; lia.
  - assert (y = 0) as ->.
    { destruct (Z.eq_dec y 0) as [|Hy]; [assumption|exfalso].
      unfold Date.days_in_month in Hd, Hgt.
      rewrite leap_full_year in Hgt by exact Hy. lia. }
    change (Date.full_year 0) with 1900 in *.
    assert (m = 1) as ->.
    { unfold Date.days_in_month in Hd, Hgt.
      destruct (m =? 1) eqn:E; [apply Z.eqb_eq in E; exact E | lia]. }
    assert (d = 29) as -> by (cbn in Hd, Hgt; lia).
    vm_compute. repeat split; discriminate.
Qed.






End DateGridBuilder.

(** ** ChatSession and EventStore *)
Section Session.
Import JS Backend Chat Samples.
Local Open Scope list_scope.

(** C3: a submit whose trimmed question is empty, or that arrives while
    [loading] is true, is a step that changes nothing: the configuration
    (messages, draft, flag, calls in flight) is the same and nothing is done
    to the outside, so no request is issued. *)
Theorem C3_rejected_submit (c : config) (now : Z) :
  trim (question (st c)) = "" \/ loading (st c) = true ->
  step c (Submit now) = Some (c, []).
Proof.
  intros H. cbn [step]. unfold handleSubmit.
  destruct H as [-> | ->]; [reflexivity|].
  rewrite orb_true_r. reflexivity.
Qed.

Lemma C3_rejected_submit_witness :
  step (asked "   ") (Submit 1700000000000) = Some (asked "   ", []).
Proof.
  apply C3_rejected_submit. left. reflexivity.
Defined.

Example submit_empty : step (asked "") (Submit 1) = Some (asked "", []).
Proof. reflexivity. Qed.

Example submit_while_loading :
  exists c done,
    run (asked "one") [Submit 1] = Some (c, done)
    /\ loading (st c) = true
    /\ step c (Submit 2) = Some (c, []).
Proof. eexists _, _. repeat split. Qed.

(** C6, as stated, fails: an ok response whose body is [{events: "oops"}]
    is malformed, yet nothing is caught: the store becomes the text, which
    is neither empty nor a list, and nothing is logged. *)
Lemma C6_misshapen_body_is_stored :
  exists st1,
    fetchEvents (Responded 200 (Some (JsonValue misshapen_events))) holding_an_event
    = Some (st1, [GetCalendarEvents])
    /\ calendarEvents st1 = VStr "oops"
    /\ calendarEvents st1 <> VArr []
    /\ forall list, calendarEvents st1 <> VArr list.
Proof.
  eexists. split; [reflexivity|]. cbn. repeat split; intros; discriminate.
Qed.

(** C6, amended: [fetchEvents] always returns, whatever the exchange with
    the calendar backend was, and touches nothing but the store.  When its
    [catch] block runs (no response, a status that is not ok, a body that
    is not JSON or is [null]) the store is empty and the failure is logged.
    Otherwise nothing is logged and the store is [data.events || []],
    whatever its shape: the returned list when [events] is an array, the
    empty list when it is missing or falsy, the value itself when it is
    truthy and no array.  So the store holds a list after every refresh but
    one with an ok body whose [events] is truthy and no array.  What the
    store was before never matters: two calls with the same exchange leave
    the same store. *)
Theorem C6_refresh_outcomes (x : exchange events_data) (st0 : state) :
  exists st1 done,
    fetchEvents x st0 = Some (st1, GetCalendarEvents :: done)
    /\ messages st1 = messages st0 /\ question st1 = question st0
    /\ loading st1 = loading st0
    /\ (caught x = true -> calendarEvents st1 = VArr [] /\ done = [ConsoleError])
    /\ (caught x = false ->
        done = []
        /\ exists status data,
             x = Responded status (Some (JsonValue data)) /\ ok status = true
             /\ calendarEvents st1 = or_else (events data) (VArr [])
             /\ (forall list, events data = VArr list -> calendarEvents st1 = VArr list)
             /\ (truthy (events data) = false -> calendarEvents st1 = VArr [])
             /\ (truthy (events data) = true -> calendarEvents st1 = events data))
    /\ ((forall list, calendarEvents st1 <> VArr list)
        <-> exists status data,
              x = Responded status (Some (JsonValue data)) /\ ok status = true
              /\ truthy (events data) = true
              /\ forall list, events data <> VArr list)
    /\ (forall st0',
          exists st1' done',
            fetchEvents x st0' = Some (st1', done')
            /\ calendarEvents st1' = calendarEvents st1).
Proof.
  assert (Hrun : exists done,
             fetchEvents x st0
             = Some (setCalendarEvents (held x) st0, GetCalendarEvents :: done)
             /\ done = if caught x then [ConsoleError] else []).
  { unfold fetchEvents.
    destruct x as [|status [[|data]|]]; cbn; try destruct (ok status); cbn;
      eexists; split; reflexivity. }
  destruct Hrun as (done & Hrun & Hdone).
  exists (setCalendarEvents (held x) st0), done.
  split; [exact Hrun|].
  split; [reflexivity|]. split; [reflexivity|]. split; [reflexivity|].
  cbn [setCalendarEvents calendarEvents].
  assert (Hheld : caught x = true -> held x = VArr []).
  { intros F. destruct x as [|status [[|data]|]]; cbn in F |- *; try reflexivity.
    rewrite orb_false_r in F. apply negb_true_iff in F. rewrite F. reflexivity. }
  assert (Hbody : caught x = false ->
                  exists status data,
                    x = Responded status (Some (JsonValue data)) /\ ok status = true
                    /\ held x = or_else (events data) (VArr [])).
  { intros F. destruct x as [|status [[|data]|]]; cbn in F; try discriminate;
      try (rewrite orb_true_r in F; discriminate).
    rewrite orb_false_r in F. apply negb_false_iff in F.
    exists status, data. cbn [held]. rewrite F. auto. }
  split; [|split; [|split]].
  - intros F. rewrite Hdone, F. auto.
  - intros F. rewrite Hdone, F. split; [reflexivity|].
    destruct (Hbody F) as (status & data & -> & Hok & E).
    exists status, data. rewrite E. unfold or_else.
    repeat split; try assumption.
    + intros list ->. reflexivity.
    + intros ->. reflexivity.
    + intros ->. reflexivity.
  - split.
    + intros Hno. destruct (caught x) eqn:F.
      * exfalso. apply (Hno []). apply Hheld. reflexivity.
      * destruct (Hbody eq_refl) as (status & data & -> & Hok & E).
        exists status, data. rewrite E in Hno. unfold or_else in Hno.
        destruct (truthy (events data)) eqn:T.
        -- repeat split; assumption.
        -- exfalso. apply (Hno []). reflexivity.
    + intros (status & data & -> & Hok & T & Hno). cbn [held]. rewrite Hok.
      unfold or_else. rewrite T. exact Hno.
  - intros st0'. unfold fetchEvents.
    destruct x as [|status [[|data]|]]; cbn; try destruct (ok status); cbn;
      eexists _, _; split; reflexivity.
Qed.

Lemma C6_refresh_outcomes_witness :
  exists st1 done,
    fetchEvents (Responded 500 None) holding_an_event
    = Some (st1, GetCalendarEvents :: done)
    /\ calendarEvents st1 = VArr [].
Proof.
  destruct (C6_refresh_outcomes (Responded 500 None) holding_an_event)
    as (st1 & done & Hrun & _ & _ & _ & Hfail & _).
  exists st1, done. split; [exact Hrun|]. exact (proj1 (Hfail eq_refl)).
Defined.

Lemma run_app (c : config) (es1 es2 : list event) :
  run c (es1 ++ es2)
  = match run c es1 with
    | None => None
    | Some (c1, done1) =>
        match run c1 es2 with
        | None => None
        | Some (c2, done2) => Some (c2, done1 ++ done2)
        end
    end.
Proof.
  revert c. induction es1 as [|e es1 IH]; intros c; cbn [run app].
  - destruct (run c es2) as [[c2 done2]|]; reflexivity.
  - destruct (step c e) as [[c1 done1]|]; [|reflexivity].
    rewrite IH. destruct (run c1 es1) as [[c2 done2]|]; [|reflexivity].
    destruct (run c2 es2) as [[c3 done3]|]; [|reflexivity].
    rewrite app_assoc. reflexivity.
Qed.

Lemma run_cons (c : config) (e : event) (es : list event) :
  run c (e :: es)
  = match step c e with
    | None => None
    | Some (c1, done1) =>
        match run c1 es with
        | None => None
        | Some (c2, done2) => Some (c2, done1 ++ done2)
        end
    end.
Proof. reflexivity. Qed.

Lemma replace_task_last (l : list task) (t : task) (next : option task) :
  replace_task (List.length l) next (l ++ [t])
  = l ++ match next with Some t1 => [t1] | None => [] end.
Proof.
  induction l as [|x l IH]; cbn.
  - destruct next; reflexivity.
  - rewrite IH. reflexivity.
Qed.

Lemma step_settle_last (l : list task) (t : task) (s : settlement) (now : Z)
  (st0 : state) :
  step {| st := st0; tasks := l ++ [t] |} (Settle (List.length l) s now)
  = match resume t s now st0 with
    | None => None
    | Some (st1, done, next) =>
        Some ({| st := st1;
                 tasks := l ++ match next with Some t1 => [t1] | None => [] end |},
              done)
    end.
Proof.
  cbn [step st tasks].
  rewrite nth_error_app2, Nat.sub_diag by lia. cbn [nth_error].
  destruct (resume t s now st0) as [[[st1 done] next]|]; [|reflexivity].
  rewrite replace_task_last. reflexivity.
Qed.

Lemma run_settle_last (l : list task) (t : task) (s : settlement) (now : Z)
  (st0 : state) (rest : list event) :
  run {| st := st0; tasks := l ++ [t] |} (Settle (List.length l) s now :: rest)
  = match resume t s now st0 with
    | None => None
    | Some (st1, done, next) =>
        match run {| st := st1;
                     tasks := l ++ match next with Some t1 => [t1] | None => [] end |}
                  rest with
        | None => None
        | Some (c2, done2) => Some (c2, done ++ done2)
        end
    end.
Proof.
  cbn [run]. rewrite step_settle_last.
  destruct (resume t s now st0) as [[[st1 done] next]|]; reflexivity.
Qed.

(** One turn as a whole: from an accepted submit to the return of
    [handleSubmit], the steps add the user message and the reply, empty the
    draft, end with [loading] false and the calls in flight as before, and
    call the calendar backend exactly when the reply is a reminder. *)
Lemma turn_runs (c : config) (now1 now2 : Z) (rag : exchange rag_data)
  (cal : exchange events_data) :
  trim (question (st c)) <> "" -> loading (st c) = false ->
  exists done,
    run c (turn (List.length (tasks c)) now1 now2 rag cal)
    = Some ({| st := {| messages := messages (st c)
                          ++ [userMessage now1 (trim (question (st c)))]
                          ++ [reply now2 rag];
                        question := "";
                        loading := false;
                        calendarEvents :=
                          if refreshes rag then held cal
                          else calendarEvents (st c) |};
               tasks := tasks c |},
            PostRagQuery (trim (question (st c))) :: done)
    /\ refresh_calls done = (if refreshes rag then 1 else 0)%nat.
Proof.
  intros Hq Hl. destruct c as [st0 l]. cbn [st tasks] in *.
  unfold turn. cbn [run step]. unfold handleSubmit. cbn [st tasks].
  rewrite Hl. apply String.eqb_neq in Hq. rewrite Hq. cbn [orb].
  remember (trim (question st0)) as trimmed eqn:Htrim. clear Htrim Hq.
  unfold refreshes, reply, held.
  destruct rag as [|status [body|]]; cbn [settlements];
    [ | destruct (ok status) eqn:Hok; cbn [andb];
        [ destruct (interpret body) as [d|err] eqn:Hd;
          [ destruct (reminder d) eqn:Hr;
            [ destruct cal as [|status2 [[|data2]|]]; cbn [settlements];
              try destruct (ok status2) eqn:Hok2 | ] | ] | ]
    | destruct (ok status) eqn:Hok ];
    cbn [map app];
    repeat first
      [ rewrite run_settle_last
      | progress cbn [resume handleSubmit_resume fetchEvents_resume option_map]
      | rewrite Hok | rewrite Hd | rewrite Hr | rewrite Hok2 ];
    cbn [run];
    cbv beta iota delta [handleSubmit_catch handleSubmit_finally fetchEvents_catch
         setMessages setLoading setQuestion setCalendarEvents
         messages question loading calendarEvents];
    rewrite ?app_nil_r, <- ?app_assoc;
    eexists; (split; [reflexivity|]); reflexivity.
Qed.

Lemma fetchEvents_resume_frame (p : events_point) (s : settlement) (st0 st1 : state)
  (done : list effect) (next : option events_point) :
  fetchEvents_resume p s st0 = Some (st1, done, next) ->
  messages st1 = messages st0 /\ question st1 = question st0
  /\ loading st1 = loading st0.
Proof.
  destruct p, s; cbn; try discriminate;
    try destruct (ok status); try destruct data;
    intros [= <- <- <-]; repeat split.
Qed.

Lemma handleSubmit_resume_loading (p : submit_point) (s : settlement) (now : Z)
  (st0 st1 : state) (done : list effect) (next : option submit_point) :
  handleSubmit_resume p s now st0 = Some (st1, done, next) ->
  match next with
  | Some _ => loading st1 = loading st0
  | None => loading st1 = false
  end.
Proof.
  destruct p as [| |q]; cbn.
  - destruct s; try discriminate; try destruct (ok status);
      intros [= <- <- <-]; reflexivity.
  - destruct s; try discriminate.
    + intros [= <- <- <-]; reflexivity.
    + destruct (interpret data) as [d|]; [destruct (reminder d)|];
        intros [= <- <- <-]; reflexivity.
  - destruct (fetchEvents_resume q s st0) as [[[st2 done2] [q2|]]|] eqn:E;
      try discriminate; intros [= <- <- <-].
    + apply fetchEvents_resume_frame in E. apply E.
    + reflexivity.
Qed.

Lemma in_flight_replace (l : list task) (i : nat) (t : task) (next : option task) :
  nth_error l i = Some t ->
  (List.length (filter is_submitting (replace_task i next l))
   + (if is_submitting t then 1 else 0)
   = List.length (filter is_submitting l)
     + match next with
       | Some t1 => if is_submitting t1 then 1 else 0
       | None => 0
       end)%nat.
Proof.
  revert i. induction l as [|x l IH]; intros [|i]; cbn [nth_error]; try discriminate.
  - intros [= ->]. cbn [replace_task filter].
    destruct next as [t1|]; cbn [filter];
      destruct (is_submitting t); try destruct (is_submitting t1); cbn [List.length]; lia.
  - intros H. specialize (IH i H). cbn [replace_task filter].
    destruct (is_submitting x); cbn [List.length]; lia.
Qed.

(** A step keeps the session in one of its two phases. *)
Lemma step_phase (c c1 : config) (e : event) (done : list effect) :
  Idle c \/ Sending c -> step c e = Some (c1, done) -> Idle c1 \/ Sending c1.
Proof.
  unfold Idle, Sending, in_flight. intros Hc Hstep. destruct e as [text|now|i s now].
  - cbn in Hstep. destruct (loading (st c)) eqn:L; [discriminate|].
    injection Hstep as <- <-. cbn. rewrite L. exact Hc.
  - cbn in Hstep. unfold handleSubmit in Hstep.
    destruct ((trim (question (st c)) =? "")%string || loading (st c)) eqn:G.
    + injection Hstep as <- <-. exact Hc.
    + injection Hstep as <- <-. cbn. right. split; [reflexivity|].
      apply orb_false_iff in G. destruct G as [_ L].
      destruct Hc as [[_ N]|[L1 _]]; [|congruence].
      rewrite filter_app, length_app, N. reflexivity.
  - cbn in Hstep. destruct (nth_error (tasks c) i) as [t|] eqn:Hi; [|discriminate].
    destruct (resume t s now (st c)) as [[[st1 done1] next]|] eqn:R; [|discriminate].
    injection Hstep as <- <-. cbn [st tasks].
    pose proof (in_flight_replace (tasks c) i t next Hi) as Hcount.
    destruct t as [p|p]; cbn [resume] in R.
    + destruct (handleSubmit_resume p s now (st c)) as [[[st2 done2] next2]|] eqn:E;
        [|discriminate].
      injection R as <- <- <-.
      apply handleSubmit_resume_loading in E.
      assert (Hin : In (Submitting p) (filter is_submitting (tasks c))).
      { apply filter_In. split; [eapply nth_error_In; eassumption | reflexivity]. }
      destruct Hc as [[_ N]|[L N]].
      { apply length_zero_iff_nil in N. rewrite N in Hin. contradiction. }
      destruct next2 as [p2|]; cbn [option_map is_submitting] in Hcount |- *.
      * right. split; [congruence | lia].
      * left. split; [exact E | lia].
    + destruct (fetchEvents_resume p s (st c)) as [[[st2 done2] next2]|] eqn:E;
        [|discriminate].
      injection R as <- <- <-.
      apply fetchEvents_resume_frame in E. destruct E as (_ & _ & L1).
      rewrite L1.
      assert (Hn : List.length (filter is_submitting (replace_task i (option_map Refreshing next2) (tasks c)))
                   = List.length (filter is_submitting (tasks c))).
      { destruct next2; cbn [option_map is_submitting] in Hcount |- *; lia. }
      rewrite Hn. exact Hc.
Qed.

Lemma run_phase (es : list event) (c c1 : config) (done : list effect) :
  Idle c \/ Sending c -> run c es = Some (c1, done) -> Idle c1 \/ Sending c1.
Proof.
  revert c done. induction es as [|e es IH]; intros c done Hc; cbn [run].
  - intros [= <- <-]. exact Hc.
  - destruct (step c e) as [[c2 done2]|] eqn:S; [|discriminate].
    destruct (run c2 es) as [[c3 done3]|] eqn:R; [|discriminate].
    intros [= <- <-]. eapply IH; [|exact R]. eapply step_phase; eassumption.
Qed.

(** C4: every configuration the mounted component reaches is idle
    ([loading] false, no call of [handleSubmit] in flight) or sending
    ([loading] true, exactly one in flight).  A step sets [loading] only as
    an accepted submit and clears it only as the return of the call in
    flight.  Every accepted submit returns, whatever the RAG exchange was
    (no response, a status that is not ok, a body that does not parse, a
    body the decoration throws on, an answer) and whatever the refresh did,
    and leaves [loading] false. *)
Theorem C4_two_phases :
  (forall c, reachable c -> Idle c \/ Sending c)
  /\ (forall c e c1 done,
        step c e = Some (c1, done) ->
        (loading (st c) = false -> loading (st c1) = true ->
         exists now, e = Submit now /\ trim (question (st c)) <> "")
        /\ (loading (st c) = true -> loading (st c1) = false ->
            exists i s now p,
              e = Settle i s now
              /\ nth_error (tasks c) i = Some (Submitting p)
              /\ tasks c1 = replace_task i None (tasks c)))
  /\ (forall c now1 now2 rag cal,
        trim (question (st c)) <> "" -> loading (st c) = false ->
        exists c1 done,
          run c (turn (List.length (tasks c)) now1 now2 rag cal) = Some (c1, done)
          /\ loading (st c1) = false /\ tasks c1 = tasks c).
Proof.
  split; [|split].
  - intros c (es & done & Hrun). eapply run_phase; [|exact Hrun].
    left. split; reflexivity.
  - intros c e c1 done Hstep. destruct e as [text|now|i s now].
    + cbn in Hstep. destruct (loading (st c)) eqn:L; [discriminate|].
      injection Hstep as <- <-. cbn. split; congruence.
    + cbn in Hstep. unfold handleSubmit in Hstep.
      destruct ((trim (question (st c)) =? "")%string || loading (st c)) eqn:G.
      * injection Hstep as <- <-. split; congruence.
      * injection Hstep as <- <-. cbn. split; [|discriminate].
        intros _ _. exists now. split; [reflexivity|].
        apply orb_false_iff in G. destruct G as [G _].
        apply String.eqb_neq. exact G.
    + cbn in Hstep. destruct (nth_error (tasks c) i) as [t|] eqn:Hi; [|discriminate].
      destruct (resume t s now (st c)) as [[[st1 done1] next]|] eqn:R; [|discriminate].
      injection Hstep as <- <-. cbn [st tasks].
      destruct t as [p|p]; cbn [resume] in R.
      * destruct (handleSubmit_resume p s now (st c)) as [[[st2 done2] next2]|] eqn:E;
          [|discriminate].
        injection R as <- <- <-.
        apply handleSubmit_resume_loading in E.
        destruct next2 as [p2|]; cbn [option_map].
        -- split; congruence.
        -- split; [congruence|]. intros _ _. exists i, s, now, p. auto.
      * destruct (fetchEvents_resume p s (st c)) as [[[st2 done2] next2]|] eqn:E;
          [|discriminate].
        injection R as <- <- <-.
        apply fetchEvents_resume_frame in E. destruct E as (_ & _ & L1).
        split; congruence.
  - intros c now1 now2 rag cal Hq Hl.
    destruct (turn_runs c now1 now2 rag cal Hq Hl) as (done & Hrun & _).
    eexists _, _. split; [exact Hrun|]. split; reflexivity.
Qed.


Lemma C4_two_phases_witness :
  exists c1 done,
    run (asked "test")
        (turn (List.length (tasks (asked "test"))) 1 2 NoResponse NoResponse)
    = Some (c1, done)
    /\ loading (st c1) = false /\ tasks c1 = tasks (asked "test").
Proof.
  apply (proj2 (proj2 C4_two_phases) (asked "test") 1 2 NoResponse NoResponse).
  - discriminate.
  - reflexivity.
Defined.

Lemma interpret_of_reminder (data : rag_data) :
  isReminder data = true ->
  interpret (JsonValue data)
  = Normal {| decoratedAnswer := answerText data; reminder := true |}.
Proof. intros R. unfold interpret. rewrite R. reflexivity. Qed.

Lemma interpret_reminder_flag (data : rag_data) (d : decorated) :
  interpret (JsonValue data) = Normal d -> reminder d = isReminder data.
Proof.
  unfold interpret.
  destruct (negb (isReminder data) && (0 <? List.length (resolved_sources data))%nat).
  - destruct (pageInfo _) as [info|]; cbn; [|discriminate].
    destruct (truthy info); cbn.
    + destruct (to_string info); cbn; [|discriminate].
      destruct (to_string (answerText data)); cbn; [|discriminate].
      intros [= <-]. reflexivity.
    + intros [= <-]. reflexivity.
  - cbn. intros [= <-]. reflexivity.
Qed.

Lemma refreshes_reminder (status : Z) (data : rag_data) :
  ok status = true ->
  refreshes (Responded status (Some (JsonValue data)))
  = match interpret (JsonValue data) with
    | Normal _ => isReminder data
    | Throw _ => false
    end.
Proof.
  intros Hok. cbn [refreshes]. rewrite Hok. cbn [andb].
  destruct (interpret (JsonValue data)) as [d|] eqn:E; [|reflexivity].
  apply interpret_reminder_flag. exact E.
Qed.

Lemma isReminder_intent (data : rag_data) :
  (intent data = VStr "reminder" -> isReminder data = true)
  /\ (intent data = VStr "rag" \/ nullish (intent data) = true ->
      isReminder data = false).
Proof.
  unfold isReminder, resolved_intent. split.
  - intros ->. reflexivity.
  - intros [-> | H]; [reflexivity|].
    rewrite coalesce_nullish by exact H. reflexivity.
Qed.

(** C5: one accepted submit whose response is ok and parses calls the
    calendar backend once when its intent is "reminder" and never when its
    intent is "rag" or missing. *)
Theorem C5_refresh_calls (c : config) (now1 now2 status : Z) (data : rag_data)
  (cal : exchange events_data) :
  trim (question (st c)) <> "" -> loading (st c) = false -> ok status = true ->
  exists c1 done,
    run c (turn (List.length (tasks c)) now1 now2
             (Responded status (Some (JsonValue data))) cal)
    = Some (c1, done)
    /\ (intent data = VStr "reminder" -> refresh_calls done = 1%nat)
    /\ (intent data = VStr "rag" \/ nullish (intent data) = true ->
        refresh_calls done = 0%nat).
Proof.
  intros Hq Hl Hok.
  destruct (turn_runs c now1 now2 (Responded status (Some (JsonValue data))) cal Hq Hl)
    as (done & Hrun & Hcalls).
  eexists _, _. split; [exact Hrun|].
  change (refresh_calls (PostRagQuery (trim (question (st c))) :: done))
    with (refresh_calls done).
  rewrite Hcalls, refreshes_reminder by exact Hok.
  destruct (isReminder_intent data) as [Hyes Hno]. split.
  - intros H. rewrite interpret_of_reminder by exact (Hyes H). rewrite (Hyes H). reflexivity.
  - intros H. rewrite (Hno H). destruct (interpret (JsonValue data)); reflexivity.
Qed.

Lemma C5_refresh_calls_witness :
  exists c1 done,
    run (asked "test")
        (turn 1 1 2 (Responded 200 (Some (JsonValue reminder_response)))
           (Responded 200 (Some (JsonValue {| events := VArr [] |}))))
    = Some (c1, done)
    /\ refresh_calls done = 1%nat.
Proof.
  destruct (C5_refresh_calls (asked "test") 1 2 200 reminder_response
              (Responded 200 (Some (JsonValue {| events := VArr [] |}))))
    as (c1 & done & Hrun & Hyes & _).
  - discriminate.
  - reflexivity.
  - reflexivity.
  - exists c1, done. split; [exact Hrun | exact (Hyes eq_refl)].
Defined.

(** C7, as stated, fails: after the reminder reply is appended, and before
    the calendar backend has answered, the call of [handleSubmit] is still
    in flight, waiting at line 135, and [loading] is still true. *)
Lemma C7_turn_waits_for_refresh :
  exists c done,
    run mounted reminder_turn_before_refresh = Some (c, done)
    /\ map content (messages (st c)) = [VStr "test"; VStr "X"]
    /\ done = [PostRagQuery "test"; GetCalendarEvents]
    /\ tasks c = [Refreshing EventsFetch; Submitting (Refresh EventsFetch)]
    /\ loading (st c) = true.
Proof. eexists _, _. repeat split. Qed.

(** C7, amended: on a reminder response the reply is appended and the
    refresh is started in the same step, and the turn then awaits the
    refresh: [loading] stays true until the exchange with the calendar
    backend has settled.  Whatever that exchange was, the turn then returns
    with [loading] false and the messages as they were: a refresh that
    fails adds no failure message, it only empties the store. *)
Theorem C7_refresh_awaited (c : config) (now1 now2 status : Z) (data : rag_data)
  (cal : exchange events_data) :
  trim (question (st c)) <> "" -> loading (st c) = false -> ok status = true ->
  isReminder data = true ->
  let i := List.length (tasks c) in
  let trimmed := trim (question (st c)) in
  exists c1 c2 done2,
    run c [Submit now1; Settle i (FetchResponse status) now2;
           Settle i (RagBody (JsonValue data)) now2]
    = Some (c1, [PostRagQuery trimmed; GetCalendarEvents])
    /\ messages (st c1)
       = messages (st c)
         ++ [userMessage now1 trimmed;
             agentMessage now2 {| decoratedAnswer := answerText data; reminder := true |}]
    /\ loading (st c1) = true
    /\ tasks c1 = tasks c ++ [Submitting (Refresh EventsFetch)]
    /\ run c1 (map (fun s => Settle i s now2) (settlements EventsBody cal))
       = Some (c2, done2)
    /\ loading (st c2) = false
    /\ messages (st c2) = messages (st c1)
    /\ calendarEvents (st c2) = held cal
    /\ tasks c2 = tasks c.
Proof.
  intros Hq Hl Hok Hr i trimmed. subst i trimmed.
  destruct c as [st0 l]. cbn [st tasks] in *.
  pose proof (interpret_of_reminder data Hr) as Hd.
  apply String.eqb_neq in Hq.
  remember (trim (question st0)) as trimmed eqn:Htrim.
  set (d := {| decoratedAnswer := answerText data; reminder := true |}) in *.
  set (st1 := {| messages := messages st0 ++ [userMessage now1 trimmed; agentMessage now2 d];
                 question := ""; loading := true;
                 calendarEvents := calendarEvents st0 |}).
  assert (Hcal : exists done2,
      run {| st := st1; tasks := l ++ [Submitting (Refresh EventsFetch)] |}
          (map (fun s => Settle (List.length l) s now2) (settlements EventsBody cal))
      = Some ({| st := setLoading false (setCalendarEvents (held cal) st1); tasks := l |},
              done2)).
  { destruct cal as [|status2 [[|data2]|]]; cbn [settlements held];
      try destruct (ok status2) eqn:Hok2; cbn [map];
      repeat first
        [ rewrite run_settle_last
        | progress cbn [resume handleSubmit_resume fetchEvents_resume option_map]
        | rewrite Hok2 ];
      cbn [run]; unfold fetchEvents_catch, handleSubmit_finally;
      rewrite ?app_nil_r; eexists; reflexivity. }
  destruct Hcal as [done2 Hcal].
  exists {| st := st1; tasks := l ++ [Submitting (Refresh EventsFetch)] |},
         {| st := setLoading false (setCalendarEvents (held cal) st1); tasks := l |},
         done2.
  split.
  { rewrite run_cons. cbn [step]. unfold handleSubmit. cbn [st tasks].
    rewrite <- Htrim, Hl, Hq. cbn [orb].
    repeat first
      [ rewrite run_settle_last
      | progress cbn [resume handleSubmit_resume option_map reminder]
      | rewrite Hok | rewrite Hd ].
    cbn [app run]. unfold st1.
    cbv beta iota delta [setMessages setLoading setQuestion messages question
                         loading calendarEvents].
    rewrite <- app_assoc. reflexivity. }
  cbn [st tasks].
  split; [reflexivity|]. split; [reflexivity|]. split; [reflexivity|].
  split; [exact Hcal|]. repeat split.
Qed.


Lemma C7_refresh_awaited_witness :
  exists c1 c2 done2,
    run (asked "test")
        [Submit 1; Settle 1 (FetchResponse 200) 2;
         Settle 1 (RagBody (JsonValue reminder_response)) 2]
    = Some (c1, [PostRagQuery "test"; GetCalendarEvents])
    /\ loading (st c1) = true
    /\ run c1 (map (fun s => Settle 1 s 2) (settlements EventsBody NoResponse))
       = Some (c2, done2)
    /\ loading (st c2) = false
    /\ messages (st c2) = messages (st c1).
Proof.
  destruct (C7_refresh_awaited (asked "test") 1 2 200 reminder_response NoResponse)
    as (c1 & c2 & done2 & H1 & _ & H3 & _ & H5 & H6 & H7 & _).
  - discriminate.
  - reflexivity.
  - reflexivity.
  - reflexivity.
  - exists c1, c2, done2. auto.
Defined.

Lemma to_int_proper (z : Z) :
  Z.to_int z <> Decimal.Pos Decimal.Nil /\ Z.to_int z <> Decimal.Neg Decimal.Nil.
Proof.
  destruct z; cbn; split; try discriminate;
    intros [= H]; revert H; apply Unsigned.to_uint_nonnil.
Qed.

Lemma number_to_string_inj (z1 z2 : Z) :
  number_to_string z1 = number_to_string z2 -> z1 = z2.
Proof.
  unfold number_to_string. intros H.
  destruct (to_int_proper z1) as [A1 B1]. destruct (to_int_proper z2) as [A2 B2].
  pose proof (NilZero.isi _ A1 B1) as E1. pose proof (NilZero.isi _ A2 B2) as E2.
  rewrite H in E1. rewrite E1 in E2. injection E2 as E.
  rewrite <- (DecimalZ.of_to z1), <- (DecimalZ.of_to z2), E. reflexivity.
Qed.

Lemma stamp_inj (a b : role * Z) : stamp a = stamp b -> a = b.
Proof.
  destruct a as [r1 t1], b as [r2 t2]. unfold stamp. cbn [fst snd].
  destruct r1, r2; cbn; intros H; try discriminate;
    f_equal; apply number_to_string_inj; congruence.
Qed.

Lemma NoDup_stamps (l : list (role * Z)) : NoDup (map stamp l) <-> NoDup l.
Proof.
  split; [apply NoDup_map_inv|].
  intros H. apply NoDup_map_NoDup_ForallPairs; [|exact H].
  intros a b _ _. apply stamp_inj.
Qed.

Lemma sorted_NoDup (l : list Z) : StronglySorted Z.lt l -> NoDup l.
Proof.
  induction 1 as [|t l _ IH Hlt]; constructor; [|exact IH].
  intros Hin. rewrite Forall_forall in Hlt. specialize (Hlt t Hin). lia.
Qed.

(** What a resumption of [handleSubmit] appends is stamped with the reading
    it takes, and it appends nothing when it takes none. *)
Lemma handleSubmit_resume_stamps (p : submit_point) (s : settlement) (now : Z)
  (st0 st1 : state) (done : list effect) (next : option submit_point) :
  handleSubmit_resume p s now st0 = Some (st1, done, next) ->
  exists more,
    messages st1 = messages st0 ++ more
    /\ map id more = map stamp (if reads_clock p s then [(agent, now)] else [])
    /\ map msg_role more = map fst (if reads_clock p s then [(agent, now)] else []).
Proof.
  assert (Hnone : forall st2 : state,
             messages st2 = messages st0 ->
             exists more, messages st2 = messages st0 ++ more
               /\ map id more = [] /\ map msg_role more = []).
  { intros st2 H. exists []. rewrite app_nil_r. auto. }
  assert (Hone : forall m, id m = stamp (agent, now) -> msg_role m = agent ->
             exists more, messages st0 ++ [m] = messages st0 ++ more
               /\ map id more = [stamp (agent, now)] /\ map msg_role more = [agent]).
  { intros m H1 H2. exists [m]. cbn. rewrite H1, H2. auto. }
  destruct p as [| |q]; cbn [handleSubmit_resume reads_clock].
  - destruct s; try discriminate; try destruct (ok status);
      intros [= <- <- <-]; cbn [negb map fst];
      first [ apply Hnone; reflexivity | apply (Hone (failureMessage now)); reflexivity ].
  - destruct s; try discriminate.
    + intros [= <- <- <-]. apply (Hone (failureMessage now)); reflexivity.
    + destruct (interpret data) as [d|]; [destruct (reminder d)|];
        intros [= <- <- <-]; cbn [map fst];
        first [ apply (Hone (agentMessage now d)); reflexivity
              | apply (Hone (failureMessage now)); reflexivity ].
  - destruct (fetchEvents_resume q s st0) as [[[st2 done2] [q2|]]|] eqn:E;
      try discriminate; intros [= <- <- <-];
      apply fetchEvents_resume_frame in E; destruct s; apply Hnone; apply E.
Qed.

(** A step appends to the history one message per reading of the clock it
    takes, of the role and with the id the reading gives. *)
Lemma step_stamps (c c1 : config) (e : event) (done : list effect) :
  step c e = Some (c1, done) ->
  exists more,
    messages (st c1) = messages (st c) ++ more
    /\ map id more = map stamp (readings c e)
    /\ map msg_role more = map fst (readings c e).
Proof.
  assert (Hnone : forall st2 : state,
             messages st2 = messages (st c) ->
             exists more, messages st2 = messages (st c) ++ more
               /\ map id more = [] /\ map msg_role more = []).
  { intros st2 H. exists []. rewrite app_nil_r. auto. }
  destruct e as [text|now|i s now]; cbn [step readings].
  - destruct (loading (st c)); [discriminate|]. intros [= <- <-].
    apply Hnone. reflexivity.
  - unfold handleSubmit.
    destruct ((trim (question (st c)) =? "")%string || loading (st c)).
    + intros [= <- <-]. apply Hnone. reflexivity.
    + intros [= <- <-].
      exists [userMessage now (trim (question (st c)))]. repeat split.
  - destruct (nth_error (tasks c) i) as [t|]; [|discriminate].
    destruct (resume t s now (st c)) as [[[st1 done1] next]|] eqn:R; [|discriminate].
    intros [= <- <-]. cbn [st].
    destruct t as [p|p]; cbn [resume] in R.
    + destruct (handleSubmit_resume p s now (st c)) as [[[st2 done2] next2]|] eqn:E;
        [|discriminate].
      injection R as <- <- <-.
      exact (handleSubmit_resume_stamps _ _ _ _ _ _ _ E).
    + destruct (fetchEvents_resume p s (st c)) as [[[st2 done2] next2]|] eqn:E;
        [|discriminate].
      injection R as <- <- <-.
      apply fetchEvents_resume_frame in E. apply Hnone. apply E.
Qed.

Lemma run_stamps (es : list event) (c c1 : config) (done : list effect) :
  run c es = Some (c1, done) ->
  exists more,
    messages (st c1) = messages (st c) ++ more
    /\ map id more = map stamp (clock_trace c es)
    /\ map msg_role more = map fst (clock_trace c es).
Proof.
  revert c done. induction es as [|e es IH]; intros c done; cbn [run clock_trace].
  - intros [= <- <-]. exists []. rewrite app_nil_r. auto.
  - destruct (step c e) as [[c2 done2]|] eqn:S; [|discriminate].
    destruct (run c2 es) as [[c3 done3]|] eqn:R; [|discriminate].
    intros [= <- <-].
    destruct (step_stamps _ _ _ _ S) as (m1 & E1 & I1 & R1).
    destruct (IH _ _ R) as (m2 & E2 & I2 & R2).
    exists (m1 ++ m2). rewrite E2, E1, <- app_assoc, !map_app.
    rewrite I1, I2, R1, R2. auto.
Qed.

Lemma clock_trace_snoc (es : list event) (c c1 : config) (done : list effect)
  (e : event) :
  run c es = Some (c1, done) ->
  clock_trace c (es ++ [e])
  = clock_trace c es ++ match step c1 e with
                        | Some _ => readings c1 e
                        | None => []
                        end.
Proof.
  revert c done. induction es as [|e0 es IH]; intros c done; cbn [run clock_trace app].
  - intros [= <- <-]. destruct (step c e) as [[c2 done2]|]; [|reflexivity].
    rewrite app_nil_r. reflexivity.
  - destruct (step c e0) as [[c2 done2]|] eqn:S; [|discriminate].
    destruct (run c2 es) as [[c3 done3]|] eqn:R; [|discriminate].
    intros [= <- <-]. rewrite (IH _ _ R), app_assoc. reflexivity.
Qed.

(** C8, amended: the id of a message is its role's prefix followed by the
    reading of [Date.now()] taken when it was created, and the history
    holds the messages in the order of these readings.  So the ids are
    pairwise distinct exactly when no two messages of one role were created
    within one reading of the clock, as whenever the readings taken rise
    strictly; a user message and a reply created within one reading still
    differ.  Every append keeps this: a step adds one message per reading
    it takes, stamped with that reading. *)
Theorem C8_ids_carry_the_readings (es : list event) (c : config)
  (done : list effect) :
  run mounted es = Some (c, done) ->
  let trace := clock_trace mounted es in
  map id (messages (st c)) = map stamp trace
  /\ map msg_role (messages (st c)) = map fst trace
  /\ (NoDup (map id (messages (st c))) <-> NoDup trace)
  /\ (StronglySorted Z.lt (map snd trace) -> NoDup (map id (messages (st c))))
  /\ (forall e c1 done1,
        step c e = Some (c1, done1) ->
        exists more,
          messages (st c1) = messages (st c) ++ more
          /\ map id more = map stamp (readings c e)
          /\ map msg_role more = map fst (readings c e)
          /\ clock_trace mounted (es ++ [e]) = trace ++ readings c e).
Proof.
  intros Hrun trace.
  destruct (run_stamps es mounted c done Hrun) as (more & E & Hid & Hrole).
  cbn [mounted st initial_state messages app] in E. subst more.
  fold trace in Hid, Hrole.
  split; [exact Hid|]. split; [exact Hrole|].
  assert (Hiff : NoDup (map id (messages (st c))) <-> NoDup trace)
    by (rewrite Hid; apply NoDup_stamps).
  split; [exact Hiff|]. split.
  - intros Hs. apply Hiff. apply (NoDup_map_inv snd). apply sorted_NoDup, Hs.
  - intros e c1 done1 Hstep.
    destruct (step_stamps _ _ _ _ Hstep) as (more & E1 & I1 & R1).
    exists more. repeat split; try assumption.
    unfold trace. rewrite (clock_trace_snoc es mounted c done e Hrun), Hstep.
    reflexivity.
Qed.

Lemma C8_ids_carry_the_readings_witness :
  NoDup ["user-5"; "agent-6"]%string.
Proof.
  refine (proj1 (proj2 (proj2 (proj2
            (C8_ids_carry_the_readings answered_turn _ _ eq_refl)))) _).
  repeat constructor.
Defined.

(** A user message and the apology created within one reading of the clock
    have distinct ids. *)
Example one_reading_two_roles :
  exists c done,
    run mounted [Change "a"; Submit 5; Settle 1 FetchFailed 5] = Some (c, done)
    /\ map id (messages (st c)) = ["user-5"; "agent-5"]%string
    /\ NoDup (map id (messages (st c))).
Proof.
  eexists _, _. split; [reflexivity|]. split; [reflexivity|].
  cbn. repeat constructor; cbn; intuition discriminate.
Qed.

(** C8, as stated, fails: two turns within one reading of the clock give
    their messages the same ids. *)
Lemma C8_same_reading_same_ids :
  exists c done,
    run mounted two_turns_one_reading = Some (c, done)
    /\ map id (messages (st c)) = ["user-5"; "agent-5"; "user-5"; "agent-5"]%string
    /\ ~ NoDup (map id (messages (st c))).
Proof.
  eexists _, _. split; [reflexivity|]. split; [reflexivity|].
  cbn. intros H. inversion H as [|x l Hin _]. apply Hin. cbn. auto.
Qed.

End Session.

(** ** The month grid, further *)
Section GridLayout.
Import JS Grid View.
Local Open Scope list_scope.

Lemma grid_shape (now : Date.t) :
  Date.valid now ->
  let today := Grid.today now in
  let lead := Z.to_nat (Date.getDay (Date.mk (Date.getFullYear today) (Date.getMonth today) 1)) in
  let days := Z.to_nat (Date.days_in_month (Date.getFullYear today) (Date.getMonth today)) in
  cells (calendar today)
  = repeat None lead
    ++ map (fun day => Some (shown_day today day)) (days_from 1 days)
    ++ repeat None (week_gap (lead + days)).
Proof.
  intros Hnow today lead days.
  destruct (today_constructed now Hnow) as [(_ & Hm & Hd) Hy].
  fold today in Hm, Hd, Hy.
  unfold calendar. cbn [cells].
  rewrite push_blanks_spec, push_days_spec, pad_week_spec.
  rewrite new_Date_last_day by exact Hm.
  rewrite new_Date_valid
    by (pose proof (days_in_month_bounds (Date.full_year (Date.getFullYear today))
                      (Date.getMonth today)); lia).
  rewrite Hy. cbn [Date.getDate app].
  rewrite Z.sub_0_r. fold lead.
  replace (Z.to_nat (Date.days_in_month (Date.getFullYear today) (Date.getMonth today) + 1 - 1))
    with days by (unfold days; lia).
  rewrite <- app_assoc. f_equal.
  assert (Hcells :
    map (fun d : Z => Some (day_cell today (Date.getFullYear today) (Date.getMonth today) d))
        (days_from 1 days)
    = map (fun day => Some (shown_day today day)) (days_from 1 days)).
  { apply map_ext_in. intros day Hin. unfold day_cell, shown_day.
    unfold days_from in Hin. apply in_map_iff in Hin.
    destruct Hin as (k & <- & Hk). apply in_seq in Hk.
    rewrite new_Date_valid by (rewrite ?Hy; unfold days in Hk; lia).
    rewrite Hy. reflexivity. }
  rewrite Hcells. f_equal. f_equal. f_equal.
  rewrite length_app, repeat_length, length_map.
  unfold days_from. rewrite length_map, length_seq. reflexivity.
Qed.






Lemma In_days_from (day : Z) (count : nat) (d : Z) :
  In d (days_from day count) <-> day <= d < day + Z.of_nat count.
Proof.
  unfold days_from. rewrite in_map_iff. split.
  - intros (k & <- & Hk). apply in_seq in Hk. lia.
  - intros Hd. exists (Z.to_nat (d - day)). split; [lia|]. apply in_seq. lia.
Qed.







Lemma append_inj_l (s a b : string) : (s ++ a = s ++ b)%string -> a = b.
Proof. induction s as [|c s IH]; cbn; [auto|]. intros [= H]. auto. Qed.

Lemma number_to_string_head (z : Z) (s : string) :
  number_to_string z <> "" /\ number_to_string z <> String "e" s.
Proof.
  unfold number_to_string.
  destruct (to_int_proper z) as [A B].
  pose proof (NilZero.isi _ A B) as E.
  split; intros H; rewrite H in E; cbn in E; [discriminate|].
  destruct (NilEmpty.uint_of_string s); discriminate.
Qed.

Lemma day_text_inj (d1 d2 : Z) :
  1 <= d1 <= 31 -> 1 <= d2 <= 31 ->
  padStart2 (number_to_string d1) = padStart2 (number_to_string d2) -> d1 = d2.
Proof.
  intros H1 H2 E.
  assert (Hall : forallb (fun a => forallb (fun b =>
             implb (padStart2 (number_to_string a) =? padStart2 (number_to_string b))%string
                   (a =? b)) (days_from 1 31)) (days_from 1 31) = true)
    by (vm_compute; reflexivity).
  rewrite forallb_forall in Hall.
  specialize (Hall d1 (proj2 (In_days_from 1 31 d1) ltac:(lia))).
  rewrite forallb_forall in Hall.
  specialize (Hall d2 (proj2 (In_days_from 1 31 d2) ltac:(lia))).
  apply String.eqb_eq in E. rewrite E in Hall. cbn in Hall.
  apply Z.eqb_eq. exact Hall.
Qed.

Lemma key_inj (y m d1 d2 : Z) :
  1 <= d1 <= 31 -> 1 <= d2 <= 31 ->
  formatISODate (Date.mk y m d1) = formatISODate (Date.mk y m d2) -> d1 = d2.
Proof.
  intros H1 H2. unfold formatISODate.
  cbn [Date.getDate Date.getFullYear Date.getMonth].
  intros E. apply append_inj_l in E. injection E as E.
  apply append_inj_l in E. injection E as E.
  apply day_text_inj; assumption.
Qed.

Lemma key_head (y m d : Z) (s : string) :
  formatISODate (Date.mk y m d) <> String "e" s.
Proof.
  unfold formatISODate. cbn [Date.getDate Date.getFullYear Date.getMonth].
  destruct (number_to_string y) as [|c rest] eqn:E.
  - destruct (number_to_string_head y "") as [H _]. congruence.
  - cbn. intros [= -> _].
    destruct (number_to_string_head y rest) as [_ H]. congruence.
Qed.

Lemma react_keys_app (index : nat) (l1 l2 : list (option cell)) :
  react_keys index (l1 ++ l2)
  = react_keys index l1 ++ react_keys (index + List.length l1) l2.
Proof.
  revert index. induction l1 as [|c l1 IH]; intros index; cbn [react_keys app List.length].
  - rewrite Nat.add_0_r. reflexivity.
  - rewrite IH. do 3 f_equal. lia.
Qed.

Lemma react_keys_blanks (index n : nat) :
  react_keys index (repeat None n) = map empty_key (seq index n).
Proof.
  revert index. induction n as [|n IH]; intros index; cbn [repeat react_keys seq map].
  - reflexivity.
  - rewrite IH. reflexivity.
Qed.

Lemma react_keys_days (today : Date.t) (index : nat) (l : list Z) :
  react_keys index (map (fun day => Some (shown_day today day)) l)
  = map (fun day => key (shown_day today day)) l.
Proof.
  revert index. induction l as [|d l IH]; intros index; cbn [map react_keys react_key].
  - reflexivity.
  - rewrite IH. reflexivity.
Qed.

Lemma empty_key_inj (i j : nat) : empty_key i = empty_key j -> i = j.
Proof.
  unfold empty_key. intros E. apply (append_inj_l "empty-") in E.
  apply number_to_string_inj in E. lia.
Qed.

Lemma NoDup_empty_keys (index n : nat) : NoDup (map empty_key (seq index n)).
Proof.
  apply NoDup_map_NoDup_ForallPairs; [|apply seq_NoDup].
  intros i j _ _. apply empty_key_inj.
Qed.

Lemma react_keys_civil (now : Date.t) :
  Date.valid now ->
  NoDup (react_keys 0 (cells (calendar (Grid.today now)))).
Proof.
  intros Hnow. rewrite (grid_shape now Hnow).
  set (today := Grid.today now).
  set (lead := Z.to_nat (Date.getDay _)).
  set (days := Z.to_nat (Date.days_in_month _ _)).
  pose proof (days_in_month_bounds (Date.getFullYear today) (Date.getMonth today)) as Hdays.
  rewrite !react_keys_app, !react_keys_blanks, react_keys_days.
  rewrite repeat_length, length_map. cbn [Nat.add].
  assert (Hday : forall k, In k (map (fun day => key (shown_day today day)) (days_from 1 days)) ->
                           forall i, k <> empty_key i).
  { intros k Hk i E. apply in_map_iff in Hk. destruct Hk as (d & <- & _).
    unfold shown_day in E. cbn [key] in E. exact (key_head _ _ _ _ E). }
  apply NoDup_app.
  - apply NoDup_empty_keys.
  - apply NoDup_app.
    + apply NoDup_map_NoDup_ForallPairs.
      * intros d1 d2 H1 H2. unfold shown_day. cbn [key].
        apply In_days_from in H1. apply In_days_from in H2.
        apply key_inj; unfold days in *; lia.
      * unfold days_from. apply NoDup_map_NoDup_ForallPairs; [|apply seq_NoDup].
        intros i j _ _. lia.
    + apply NoDup_empty_keys.
    + intros k Hk Hin. apply in_map_iff in Hin. destruct Hin as (i & <- & _).
      exact (Hday _ Hk i eq_refl).
  - intros k Hk Hin. apply in_map_iff in Hk. destruct Hk as (i & <- & Hi).
    apply in_seq in Hi. apply in_app_or in Hin. destruct Hin as [Hin|Hin].
    + exact (Hday _ Hin i eq_refl).
    + apply in_map_iff in Hin. destruct Hin as (j & E & Hj).
      apply empty_key_inj in E. apply in_seq in Hj.
      unfold days_from in Hj. rewrite length_map, length_seq in Hj. lia.
Qed.

Lemma host_push_days_spec (z : Host.zone) (today : Date.t) (y m day dim : Z)
  (acc : list (option cell)) :
  Host.push_days z today y m day dim acc
  = acc ++ map (fun d => Some (Host.day_cell z today y m d))
             (days_from day (Z.to_nat (dim + 1 - day))).
Proof.
  funelim (Host.push_days z today y m day dim acc).
  - rewrite H. rewrite <- app_assoc. f_equal.
    replace (Z.to_nat (daysInMonth + 1 - day))
      with (S (Z.to_nat (daysInMonth + 1 - (day + 1)))) by lia.
    rewrite days_from_succ. reflexivity.
  - replace (Z.to_nat (daysInMonth + 1 - day)) with 0%nat by lia.
    cbn. rewrite app_nil_r. reflexivity.
Qed.

(** In a zone that has every day of the month of today, the host builds
    the grid of the civil calendar. *)
Lemma calendar_in_zone (z : Host.zone) (now : Date.t) :
  Date.valid now ->
  Host.has_month z (Date.getFullYear (Grid.today now)) (Date.getMonth (Grid.today now)) ->
  Host.today z now = Grid.today now
  /\ Host.calendar z (Host.today z now) = calendar (Grid.today now).
Proof.
  intros Hnow Hz.
  destruct (today_constructed now Hnow) as [(_ & Hm & Hd) Hy].
  assert (Ht : Host.today z now = Grid.today now).
  { unfold Host.today, Host.new_Date.
    change (Date.new_Date (Date.getFullYear now) (Date.getMonth now) (Date.getDate now))
      with (Grid.today now).
    destruct (Grid.today now) as [Y M D]. apply Hz. exact Hd. }
  split; [exact Ht|]. rewrite Ht.
  destruct (Grid.today now) as [Y M D].
  cbn [Date.getFullYear Date.getMonth Date.getDate] in *.
  pose proof (days_in_month_bounds Y M) as Hdim.
  assert (Hday : forall d, 1 <= d <= Date.days_in_month Y M ->
                   Host.new_Date z Y M d = Date.new_Date Y M d).
  { intros d Hr. unfold Host.new_Date.
    rewrite new_Date_valid by (rewrite ?Hy; lia). rewrite Hy. apply Hz. exact Hr. }
  assert (Hlast : Host.new_Date z Y (M + 1) 0 = Date.new_Date Y (M + 1) 0).
  { unfold Host.new_Date. rewrite new_Date_last_day by exact Hm.
    rewrite Hy. apply Hz. lia. }
  unfold Host.calendar, calendar.
  cbn [Date.getFullYear Date.getMonth Date.getDate].
  rewrite Hlast, (Hday 1) by lia. f_equal. f_equal.
  rewrite host_push_days_spec, push_days_spec. f_equal.
  apply map_ext_in. intros d Hin. apply In_days_from in Hin.
  rewrite new_Date_last_day, Hy in Hin by exact Hm.
  cbn [Date.getDate] in Hin.
  unfold Host.day_cell, day_cell. rewrite Hday by lia. reflexivity.
Qed.

(** X4: in a time zone of the host that has every day of the month of
    today, the React keys of the cells of the grid (lines 307 and 316) are
    pairwise distinct. *)
Theorem X4_react_keys_distinct (z : Host.zone) (now : Date.t) :
  Date.valid now ->
  Host.has_month z (Date.getFullYear (Grid.today now)) (Date.getMonth (Grid.today now)) ->
  NoDup (react_keys 0 (cells (Host.calendar z (Host.today z now)))).
Proof.
  intros Hnow Hz.
  destruct (calendar_in_zone z now Hnow Hz) as [_ ->].
  apply react_keys_civil. exact Hnow.
Qed.

Lemma X4_react_keys_distinct_witness :
  NoDup (react_keys 0
           (cells (Host.calendar Host.apia (Host.today Host.apia (Date.mk 2026 10 2))))).
Proof.
  refine (X4_react_keys_distinct Host.apia (Date.mk 2026 10 2) _ _).
  - unfold Date.valid. cbn. lia.
  - intros day _. reflexivity.
Defined.

(** Where the zone lacks a day of the month the keys repeat: on 29
    December 2011 in Pacific/Apia the cells of the days 30 and 31 both get
    the key of 31 December. *)
Example apia_keys_repeat :
  let grid := cells (Host.calendar Host.apia (Host.today Host.apia (Date.mk 2011 11 29))) in
  List.length grid = 35%nat
  /\ option_map key (nth 33 grid None) = Some "2011-12-31"%string
  /\ option_map label (nth 33 grid None) = Some 30
  /\ option_map key (nth 34 grid None) = Some "2011-12-31"%string
  /\ option_map label (nth 34 grid None) = Some 31
  /\ ~ NoDup (react_keys 0 grid).
Proof.
  cbv zeta. repeat split; try (vm_compute; reflexivity).
  intros H.
  assert (Hk : nth 33 (react_keys 0
                 (cells (Host.calendar Host.apia (Host.today Host.apia (Date.mk 2011 11 29)))))
                 ""%string
               = nth 34 (react_keys 0
                 (cells (Host.calendar Host.apia (Host.today Host.apia (Date.mk 2011 11 29)))))
                 ""%string) by (vm_compute; reflexivity).
  rewrite NoDup_nth in H. specialize (H 33%nat 34%nat).
  assert (33 = 34)%nat; [|lia].
  apply H; [vm_compute; lia | vm_compute; lia | exact Hk].
Qed.










End GridLayout.

(** ** The view *)
Section Rendering.
Import JS Backend Chat Grid View History Samples.
Local Open Scope list_scope.

Lemma event_date_throws (event : value) :
  event_date event = Throw TypeError <-> nullish event = true.
Proof. destruct event; cbn; split; congruence. Qed.

Lemma on_day_normal (c : cell) (event : value) :
  nullish event = false -> on_day c event = Normal (is_on_day c event).
Proof.
  intros H. unfold is_on_day, on_day.
  destruct event; cbn in *; try discriminate; reflexivity.
Qed.

Lemma filter_items_normal (c : cell) (items : list value) :
  Forall (fun item => nullish item = false) items ->
  filter_items (on_day c) items = Normal (filter (is_on_day c) items).
Proof.
  induction 1 as [|item items H _ IH]; cbn [filter_items filter]; [reflexivity|].
  rewrite on_day_normal by exact H. cbn [bind]. rewrite IH. reflexivity.
Qed.

Lemma filter_items_throws (c : cell) (items : list value) :
  filter_items (on_day c) items = Throw TypeError
  <-> Exists (fun item => nullish item = true) items.
Proof.
  induction items as [|item items IH]; cbn [filter_items].
  - split; [discriminate | intros H; inversion H].
  - destruct (nullish item) eqn:N.
    + apply event_date_throws in N. unfold on_day at 1. rewrite N. cbn.
      split; [intros _ | reflexivity]. left.
      apply event_date_throws. exact N.
    + rewrite on_day_normal by exact N. cbn [bind].
      destruct (filter_items (on_day c) items) as [kept|[]] eqn:F; cbn [bind].
      * split; [discriminate|]. intros H. inversion H as [? ? H1|? ? H1]; subst.
        -- congruence.
        -- apply IH in H1. discriminate.
      * split; [intros _; right; apply IH; reflexivity | reflexivity].
Qed.

Lemma event_marks_civil (now : Date.t) (items : list value) (event : value)
  (d : Z) (c : cell) :
  Date.valid now ->
  let today := Grid.today now in
  let year := Date.getFullYear today in
  let month := Date.getMonth today in
  1 <= d <= Date.days_in_month year month ->
  Forall (fun item => nullish item = false) items ->
  In event items ->
  event_date event = Normal (VStr (formatISODate (Date.mk year month d))) ->
  In (Some c) (cells (calendar today)) ->
  exists dailyEvents,
    View.dailyEvents (VArr items) c = Normal dailyEvents
    /\ (In event dailyEvents <-> label c = d).
Proof.
  intros Hnow today year month Hd Hitems Hin Hdate Hc.
  pose proof (days_in_month_bounds year month) as Hdays.
  unfold today in Hc. rewrite (grid_shape now Hnow) in Hc. fold today in Hc.
  apply in_app_or in Hc. destruct Hc as [Hc|Hc];
    [apply repeat_spec in Hc; discriminate|].
  apply in_app_or in Hc. destruct Hc as [Hc|Hc];
    [|apply repeat_spec in Hc; discriminate].
  apply in_map_iff in Hc. destruct Hc as (d' & [= <-] & Hd').
  apply In_days_from in Hd'. fold year month in Hd'.
  exists (filter (is_on_day (shown_day today d')) items).
  split; [apply filter_items_normal; exact Hitems|].
  rewrite filter_In. cbn [shown_day label].
  unfold is_on_day, on_day. rewrite Hdate. cbn [bind shown_day key].
  fold year month. rewrite String.eqb_eq. split.
  - intros [_ E]. symmetry. apply (key_inj year month); [lia | lia | exact E].
  - intros ->. split; [exact Hin | reflexivity].
Qed.

(** X6: in a time zone of the host that has every day of the month of
    today, and when no item of the store is null or undefined, an event of
    the store dated, in the format of [formatISODate], on day [d] of that
    month is among the events of a day cell exactly when the cell is that
    of day [d]: it marks that cell and no other. *)
Theorem X6_event_marks_its_day (z : Host.zone) (now : Date.t) (items : list value)
  (event : value) (d : Z) (c : cell) :
  Date.valid now ->
  let today := Grid.today now in
  let year := Date.getFullYear today in
  let month := Date.getMonth today in
  Host.has_month z year month ->
  1 <= d <= Date.days_in_month year month ->
  Forall (fun item => nullish item = false) items ->
  In event items ->
  event_date event = Normal (VStr (formatISODate (Date.mk year month d))) ->
  In (Some c) (cells (Host.calendar z (Host.today z now))) ->
  exists dailyEvents,
    View.dailyEvents (VArr items) c = Normal dailyEvents
    /\ (In event dailyEvents <-> label c = d).
Proof.
  intros Hnow today year month Hz Hd Hitems Hin Hdate Hc.
  destruct (calendar_in_zone z now Hnow Hz) as [_ E]. rewrite E in Hc.
  exact (event_marks_civil now items event d c Hnow Hd Hitems Hin Hdate Hc).
Qed.

Lemma X6_event_marks_its_day_witness :
  let event := VObj [("id", VNum 1); ("date", VStr "2026-11-02")]%string in
  let c := shown_day (Grid.today (Date.mk 2026 10 2)) 2 in
  exists dailyEvents,
    View.dailyEvents (VArr [event]) c = Normal dailyEvents
    /\ (In event dailyEvents <-> label c = 2).
Proof.
  refine (X6_event_marks_its_day Host.apia (Date.mk 2026 10 2)
            [VObj [("id", VNum 1); ("date", VStr "2026-11-02")]%string]
            (VObj [("id", VNum 1); ("date", VStr "2026-11-02")]%string) 2
            (shown_day (Grid.today (Date.mk 2026 10 2)) 2) _ _ _ _ _ _ _).
  - unfold Date.valid. cbn. lia.
  - intros day _. reflexivity.
  - vm_compute. split; discriminate.
  - repeat constructor.
  - left. reflexivity.
  - reflexivity.
  - vm_compute. right. left. reflexivity.
Defined.

(** Where the zone lacks a day of the month an event marks two cells: on
    29 December 2011 in Pacific/Apia an event dated 31 December is among
    the events of the cells of the days 30 and 31. *)
Example apia_event_marks_two_cells :
  let grid := cells (Host.calendar Host.apia (Host.today Host.apia (Date.mk 2011 11 29))) in
  let event := VObj [("date", VStr "2011-12-31")]%string in
  exists c30 c31,
    nth_error grid 33 = Some (Some c30) /\ label c30 = 30
    /\ nth_error grid 34 = Some (Some c31) /\ label c31 = 31
    /\ View.dailyEvents (VArr [event]) c30 = Normal [event]
    /\ View.dailyEvents (VArr [event]) c31 = Normal [event].
Proof.
  cbv zeta. eexists _, _.
  split; [vm_compute; reflexivity|]. split; [reflexivity|].
  split; [vm_compute; reflexivity|]. split; [reflexivity|].
  split; reflexivity.
Qed.


Lemma dailyEvents_throws (store : value) (c : cell) :
  dailyEvents store c = Throw TypeError
  <-> (is_array store = false
       \/ exists items, store = VArr items
            /\ Exists (fun item => nullish item = true) items).
Proof.
  destruct store; cbn [dailyEvents is_array];
    try (split; [intros _; left; reflexivity | reflexivity]).
  rewrite filter_items_throws. split.
  - intros H. right. eauto.
  - intros [H|(l & [= <-] & H)]; [discriminate | exact H].
Qed.

Lemma render_cells_throws (store : value) (index : nat) (grid : list (option cell)) :
  render_cells store index grid = Throw TypeError
  <-> exists c, In (Some c) grid /\ dailyEvents store c = Throw TypeError.
Proof.
  revert index. induction grid as [|c grid IH]; intros index; cbn [render_cells].
  - split; [discriminate | intros (c & [] & _)].
  - destruct c as [day|]; cbn [render_cell].
    + destruct (dailyEvents store day) as [evs|[]] eqn:D; cbn [bind].
      * destruct (render_cells store (S index) grid) as [vs|[]] eqn:R; cbn [bind].
        -- split; [discriminate|]. intros (c & [[= <-]|Hin] & Hc); [congruence|].
           assert (render_cells store (S index) grid = Throw TypeError)
             by (apply IH; eauto). congruence.
        -- split; [intros _ | reflexivity].
           destruct (proj1 (IH (S index)) R) as (c & Hin & Hc).
           exists c. split; [right; exact Hin | exact Hc].
      * split; [intros _ | reflexivity]. exists day. split; [left; reflexivity | exact D].
    + cbn [bind].
      destruct (render_cells store (S index) grid) as [vs|[]] eqn:R; cbn [bind].
      * split; [discriminate|]. intros (c & [Hin|Hin] & Hc); [discriminate|].
        assert (render_cells store (S index) grid = Throw TypeError)
          by (apply IH; eauto). congruence.
      * split; [intros _ | reflexivity].
        destruct (proj1 (IH (S index)) R) as (c & Hin & Hc).
        exists c. split; [right; exact Hin | exact Hc].
Qed.

(** X7: [fetchEvents] stores [data.events] of an ok response unchecked
    (line 69), so rendering the grid after it throws a TypeError exactly
    when [events] is truthy and is no array of items that are all neither
    null nor undefined: a truthy value that is not an array, or an array
    with a null or undefined item. *)
Theorem X7_refresh_can_break_the_grid (now : Date.t) (status : Z)
  (data : events_data) (st0 : state) :
  Date.valid now -> ok status = true ->
  exists st1 done,
    fetchEvents (Responded status (Some (JsonValue data))) st0 = Some (st1, done)
    /\ (render_grid (calendarEvents st1) (calendar (Grid.today now)) = Throw TypeError
        <-> truthy (events data) = true
            /\ forall items, events data = VArr items ->
                  Exists (fun item => nullish item = true) items).
Proof.
  intros Hnow Hok. unfold fetchEvents. cbn [settlements]. rewrite Hok.
  cbn [fetchEvents_settle fetchEvents_resume]. rewrite Hok.
  cbn [fetchEvents_settle fetchEvents_resume app].
  eexists _, _. split; [reflexivity|].
  cbn [calendarEvents setCalendarEvents]. unfold render_grid.
  rewrite render_cells_throws.
  assert (Hday : exists c, In (Some c) (cells (calendar (Grid.today now)))).
  { rewrite (grid_shape now Hnow).
    set (today := Grid.today now).
    pose proof (days_in_month_bounds (Date.getFullYear today) (Date.getMonth today)) as Hd.
    exists (shown_day today 1). apply in_or_app. right. apply in_or_app. left.
    apply in_map_iff. exists 1. split; [reflexivity|]. apply In_days_from. lia. }
  destruct Hday as (c0 & Hc0).
  split.
  - intros (c & _ & Hc). apply dailyEvents_throws in Hc.
    unfold or_else in Hc. destruct (truthy (events data)) eqn:T.
    + split; [reflexivity|]. intros items E. rewrite E in Hc. cbn in Hc.
      destruct Hc as [Hc|(l & [= <-] & Hc)]; [discriminate | exact Hc].
    + cbn in Hc. destruct Hc as [Hc|(l & [= <-] & Hc)]; [discriminate | inversion Hc].
  - intros [T Hitems]. exists c0. split; [exact Hc0|].
    apply dailyEvents_throws. unfold or_else. rewrite T.
    destruct (events data) as [| | | | |items|] eqn:E; cbn; auto.
    right. exists items. split; [reflexivity | apply Hitems; reflexivity].
Qed.

Lemma X7_refresh_can_break_the_grid_witness :
  exists st1 done,
    fetchEvents (Responded 200 (Some (JsonValue {| events := VArr [VNull] |})))
      initial_state
    = Some (st1, done)
    /\ (render_grid (calendarEvents st1) (calendar (Grid.today (Date.mk 2026 10 2)))
        = Throw TypeError
        <-> truthy (VArr [VNull]) = true
            /\ forall items, VArr [VNull] = VArr items ->
                  Exists (fun item => nullish item = true) items).
Proof.
  refine (X7_refresh_can_break_the_grid (Date.mk 2026 10 2) 200
            {| events := VArr [VNull] |} initial_state _ _).
  - unfold Date.valid. cbn. lia.
  - reflexivity.
Defined.

Lemma split_lines_nonempty (s : string) : split_lines s <> [].
Proof.
  induction s as [|c s IH]; cbn [split_lines]; [discriminate|].
  destruct (c =? ascii_of_nat 10)%char; [discriminate|].
  destruct (split_lines s); [contradiction | discriminate].
Qed.

Lemma join_split_lines (s : string) : join LF (split_lines s) = s.
Proof.
  induction s as [|c s IH]; [reflexivity|]. cbn [split_lines].
  pose proof (split_lines_nonempty s) as Hne.
  destruct (c =? ascii_of_nat 10)%char eqn:E.
  - apply Ascii.eqb_eq in E. subst c.
    destruct (split_lines s) as [|line more]; [contradiction|].
    change (join LF ("" :: line :: more)) with (LF ++ join LF (line :: more))%string.
    rewrite IH. reflexivity.
  - destruct (split_lines s) as [|line more]; [contradiction|].
    destruct more as [|next more].
    + cbn in IH |- *. congruence.
    + change (join LF (String c line :: next :: more))
        with (String c (line ++ LF ++ join LF (next :: more)))%string.
      change (join LF (line :: next :: more))
        with (line ++ LF ++ join LF (next :: more))%string in IH.
      rewrite IH. reflexivity.
Qed.

(** X8: a message whose content is a text is rendered as at least one line,
    and the lines joined by line feeds are the text again: the split of
    line 193 loses nothing. *)
Theorem X8_lines_keep_the_text (m : message) (s : string) :
  content m = VStr s ->
  exists lines,
    content_lines m = Normal lines /\ lines <> [] /\ join LF lines = s.
Proof.
  intros H. unfold content_lines. rewrite H.
  exists (split_lines s). split; [reflexivity|].
  split; [apply split_lines_nonempty | apply join_split_lines].
Qed.

Lemma X8_lines_keep_the_text_witness :
  exists lines,
    content_lines (failureMessage 1) = Normal lines
    /\ lines <> [] /\ join LF lines = failureText.
Proof.
  exact (X8_lines_keep_the_text (failureMessage 1) failureText eq_refl).
Defined.

Lemma split_lines_break (a b : string) :
  split_lines (a ++ LF ++ b) = split_lines a ++ split_lines b.
Proof.
  induction a as [|c a IH]; [reflexivity|].
  cbn [String.append split_lines].
  pose proof (split_lines_nonempty a) as Hne.
  destruct (c =? ascii_of_nat 10)%char.
  - rewrite IH. reflexivity.
  - rewrite IH. destruct (split_lines a) as [|line more]; [contradiction|]. reflexivity.
Qed.

Lemma one_line_app (a b : string) :
  split_lines a = [a] -> split_lines b = [b] -> split_lines (a ++ b) = [(a ++ b)%string].
Proof.
  intros Ha Hb. induction a as [|c a IH]; [exact Hb|].
  cbn [String.append split_lines] in Ha |- *.
  pose proof (split_lines_nonempty a) as Hne.
  destruct (c =? ascii_of_nat 10)%char.
  - destruct (split_lines a); [contradiction | discriminate].
  - destruct (split_lines a) as [|line more]; [contradiction|].
    injection Ha as -> ->. rewrite IH by reflexivity. reflexivity.
Qed.

(** X9: a cited answer is rendered as the lines of the answer, an empty
    line, and the citation as one last line, when the page information
    holds no line feed. *)
Theorem X9_citation_on_its_own_line (now : Z) (data : rag_data) (d : decorated)
  (first info : value) (rest : list value) (text printed : string) :
  interpret (JsonValue data) = Normal d ->
  isReminder data = false ->
  resolved_sources data = first :: rest ->
  pageInfo first = Normal info -> truthy info = true ->
  to_string info = Normal printed ->
  to_string (answerText data) = Normal text ->
  split_lines printed = [printed] ->
  content_lines (agentMessage now d)
  = Normal (split_lines text ++ [""%string; citation_line printed]).
Proof.
  intros Hd R S P T Hp Ht Hone.
  assert (Hval : interpret (JsonValue data)
                 = Normal {| decoratedAnswer := VStr (text ++ citation printed);
                             reminder := false |}).
  { unfold interpret. rewrite R, S. cbn. rewrite P. cbn. rewrite T, Hp. cbn.
    rewrite Ht. reflexivity. }
  rewrite Hval in Hd. injection Hd as <-.
  unfold content_lines, agentMessage. cbn [content decoratedAnswer]. f_equal.
  change (citation printed) with (LF ++ (LF ++ citation_line printed))%string.
  rewrite split_lines_break. f_equal.
  change (LF ++ citation_line printed)%string
    with ("" ++ LF ++ citation_line printed)%string.
  rewrite split_lines_break. cbn [split_lines app]. f_equal.
  unfold citation_line. apply one_line_app; [reflexivity|].
  apply one_line_app; [exact Hone | reflexivity].
Qed.

Lemma X9_citation_on_its_own_line_witness :
  content_lines
    (agentMessage 7 {| decoratedAnswer := VStr ("Y" ++ citation "12"); reminder := false |})
  = Normal ["Y"; ""; "(참고: p.12 등 매뉴얼 내용 기반)"]%string.
Proof.
  apply (X9_citation_on_its_own_line 7 cited_response _
           (VObj [("page"%string, VNum 12)]) (VNum 12) [] "Y" "12");
    reflexivity.
Defined.


Lemma interpret_content (data : rag_data) (d : decorated) :
  interpret (JsonValue data) = Normal d ->
  (exists s, decoratedAnswer d = VStr s) \/ decoratedAnswer d = answerText data.
Proof.
  unfold interpret.
  destruct (negb (isReminder data) && (0 <? List.length (resolved_sources data))%nat).
  - destruct (pageInfo _) as [info|]; cbn; [|discriminate].
    destruct (truthy info); cbn.
    + destruct (to_string info); cbn; [|discriminate].
      destruct (to_string (answerText data)); cbn; [|discriminate].
      intros [= <-]. left. cbn. eauto.
    + intros [= <-]. right. reflexivity.
  - cbn. intros [= <-]. right. reflexivity.
Qed.

Lemma step_textual (c c1 : config) (e : event) (done : list effect) :
  step c e = Some (c1, done) -> string_answer e ->
  Forall textual (messages (st c)) -> Forall textual (messages (st c1)).
Proof.
  intros Hstep He Hc.
  assert (Hadd : forall m, textual m -> Forall textual (messages (st c) ++ [m])).
  { intros m Hm. apply Forall_app. split; [exact Hc | constructor; [exact Hm | constructor]]. }
  assert (Hfail : forall now, textual (failureMessage now)) by (intros; eexists; reflexivity).
  destruct e as [text|now|i s now]; cbn [step] in Hstep.
  - destruct (loading (st c)); [discriminate|]. injection Hstep as <- <-. exact Hc.
  - unfold handleSubmit in Hstep.
    destruct ((trim (question (st c)) =? "")%string || loading (st c)).
    + injection Hstep as <- <-. exact Hc.
    + injection Hstep as <- <-. cbn. apply Hadd. eexists. reflexivity.
  - destruct (nth_error (tasks c) i) as [t|]; [|discriminate].
    destruct (resume t s now (st c)) as [[[st1 done1] next]|] eqn:R; [|discriminate].
    injection Hstep as <- <-. cbn [st].
    destruct t as [p|p]; cbn [resume] in R.
    + destruct (handleSubmit_resume p s now (st c)) as [[[st2 done2] next2]|] eqn:E;
        [|discriminate].
      injection R as <- <- <-.
      destruct p as [| |q]; cbn in E.
      * destruct s; try discriminate; try destruct (ok status);
          injection E as <- <- <-; cbn; auto.
      * destruct s as [| | |body|]; try discriminate.
        -- injection E as <- <- <-; cbn; auto.
        -- destruct (interpret body) as [d|] eqn:I.
           ++ assert (Hd : textual (agentMessage now d)).
              { destruct body as [|data]; [discriminate|].
                cbn in He. destruct He as [a Ha].
                destruct (interpret_content data d I) as [[b Hb]|Hb];
                  unfold textual, agentMessage; cbn [content]; rewrite Hb; eauto. }
              destruct (reminder d); injection E as <- <- <-; cbn; auto.
           ++ injection E as <- <- <-; cbn; auto.
      * destruct (fetchEvents_resume q s (st c)) as [[[st3 done3] [q3|]]|] eqn:F;
          try discriminate; injection E as <- <- <-;
          apply fetchEvents_resume_frame in F; destruct F as (F & _);
          cbn; rewrite F; exact Hc.
    + destruct (fetchEvents_resume p s (st c)) as [[[st2 done2] next2]|] eqn:E;
        [|discriminate].
      injection R as <- <- <-.
      apply fetchEvents_resume_frame in E. destruct E as (E & _). rewrite E. exact Hc.
Qed.

(** X10: when every answer the RAG backend sends is a text, every message
    of every state the mounted component reaches holds a text, and
    rendering its lines (line 193) never throws. *)
Theorem X10_contents_stay_text (es : list event) (c : config) (done : list effect) :
  run mounted es = Some (c, done) ->
  Forall string_answer es ->
  Forall (fun m => exists lines, content_lines m = Normal lines) (messages (st c)).
Proof.
  intros Hrun Hes.
  assert (H : Forall textual (messages (st c))).
  { assert (Hgen : forall es c0 c1 done,
               run c0 es = Some (c1, done) -> Forall string_answer es ->
               Forall textual (messages (st c0)) -> Forall textual (messages (st c1))).
    { clear. induction es as [|e es IH]; intros c0 c1 done; cbn [run].
      - intros [= <- <-] _ H. exact H.
      - destruct (step c0 e) as [[c2 done2]|] eqn:S; [|discriminate].
        destruct (run c2 es) as [[c3 done3]|] eqn:R; [|discriminate].
        intros [= <- <-] Hes H. inversion Hes as [|? ? He Hrest]; subst.
        eapply IH; [exact R | exact Hrest |]. eapply step_textual; eassumption. }
    eapply Hgen; [exact Hrun | exact Hes | constructor]. }
  eapply Forall_impl; [|exact H].
  intros m [s Hs]. unfold content_lines. rewrite Hs. eauto.
Qed.

Lemma X10_contents_stay_text_witness :
  exists c done,
    run mounted reminder_turn_before_refresh = Some (c, done)
    /\ Forall (fun m => exists lines, content_lines m = Normal lines)
         (messages (st c)).
Proof.
  eexists _, _. split; [reflexivity|].
  apply (X10_contents_stay_text reminder_turn_before_refresh _ _ eq_refl).
  repeat (apply Forall_cons; [first [exact I | eexists; reflexivity]|]).
  apply Forall_nil.
Defined.

End Rendering.

(** ** The session, further *)
Section Ledger.
Import JS Backend Chat View History Samples.
Local Open Scope list_scope.

Lemma ledger_intro (old more : list message) (done : list effect) :
  map VStr (posted done) = map content (filter is_user more) ->
  refresh_calls done = List.length (filter is_reminder_reply more) ->
  ledger old (old ++ more) done.
Proof.
  intros Hp Hr. unfold ledger.
  rewrite skipn_app, skipn_all, Nat.sub_diag. cbn [skipn app]. auto.
Qed.

Lemma ledger_elim (old new : list message) (done : list effect) :
  ledger old new done ->
  exists more,
    new = old ++ more
    /\ map VStr (posted done) = map content (filter is_user more)
    /\ refresh_calls done = List.length (filter is_reminder_reply more).
Proof. intros H. exists (skipn (List.length old) new). exact H. Qed.

Lemma ledger_same (old : list message) (done : list effect) :
  posted done = [] -> refresh_calls done = 0%nat -> ledger old old done.
Proof.
  intros Hp Hr. rewrite <- (app_nil_r old) at 2.
  apply ledger_intro; [rewrite Hp; reflexivity | exact Hr].
Qed.

Lemma ledger_trans (l0 l1 l2 : list message) (d1 d2 : list effect) :
  ledger l0 l1 d1 -> ledger l1 l2 d2 -> ledger l0 l2 (d1 ++ d2).
Proof.
  intros H1 H2.
  destruct (ledger_elim _ _ _ H1) as (m1 & -> & P1 & R1).
  destruct (ledger_elim _ _ _ H2) as (m2 & -> & P2 & R2).
  rewrite <- app_assoc. apply ledger_intro.
  - unfold posted in *. rewrite flat_map_app, filter_app, !map_app. congruence.
  - unfold refresh_calls in *. rewrite !filter_app, !length_app. congruence.
Qed.

Lemma fetchEvents_resume_quiet (p : events_point) (s : settlement) (st0 st1 : state)
  (done : list effect) (next : option events_point) :
  fetchEvents_resume p s st0 = Some (st1, done, next) ->
  posted done = [] /\ refresh_calls done = 0%nat.
Proof.
  destruct p, s; cbn; try discriminate;
    try destruct (ok status); try destruct data;
    intros [= <- <- <-]; split; reflexivity.
Qed.

Lemma handleSubmit_resume_ledger (p : submit_point) (s : settlement) (now : Z)
  (st0 st1 : state) (done : list effect) (next : option submit_point) :
  handleSubmit_resume p s now st0 = Some (st1, done, next) ->
  ledger (messages st0) (messages st1) done.
Proof.
  assert (Hfail : ledger (messages st0) (messages st0 ++ [failureMessage now]) [ConsoleError]).
  { apply ledger_intro; reflexivity. }
  destruct p as [| |q]; cbn.
  - destruct s; try discriminate; try destruct (ok status);
      intros [= <- <- <-]; cbn; auto using ledger_same.
  - destruct s; try discriminate.
    + intros [= <- <- <-]; exact Hfail.
    + destruct (interpret data) as [d|]; [destruct (reminder d) eqn:R|];
        intros [= <- <- <-]; cbn; try exact Hfail;
        (apply ledger_intro; [reflexivity|]);
        cbn; unfold is_reminder_reply, agentMessage; cbn; rewrite R; reflexivity.
  - destruct (fetchEvents_resume q s st0) as [[[st2 done2] [q2|]]|] eqn:E;
      try discriminate; intros [= <- <- <-];
      pose proof (fetchEvents_resume_quiet _ _ _ _ _ _ E) as [Hp Hr];
      apply fetchEvents_resume_frame in E; destruct E as (E & _);
      cbn; rewrite E; apply ledger_same; assumption.
Qed.

Lemma step_ledger (c c1 : config) (e : event) (done : list effect) :
  step c e = Some (c1, done) ->
  ledger (messages (st c)) (messages (st c1)) done.
Proof.
  destruct e as [text|now|i s now]; cbn [step].
  - destruct (loading (st c)); [discriminate|]. intros [= <- <-].
    apply ledger_same; reflexivity.
  - unfold handleSubmit.
    destruct ((trim (question (st c)) =? "")%string || loading (st c)).
    + intros [= <- <-]. apply ledger_same; reflexivity.
    + intros [= <- <-]. cbn. apply ledger_intro; reflexivity.
  - destruct (nth_error (tasks c) i) as [t|]; [|discriminate].
    destruct (resume t s now (st c)) as [[[st1 done1] next]|] eqn:R; [|discriminate].
    intros [= <- <-]. cbn [st].
    destruct t as [p|p]; cbn [resume] in R.
    + destruct (handleSubmit_resume p s now (st c)) as [[[st2 done2] next2]|] eqn:E;
        [|discriminate].
      injection R as <- <- <-. eapply handleSubmit_resume_ledger. exact E.
    + destruct (fetchEvents_resume p s (st c)) as [[[st2 done2] next2]|] eqn:E;
        [|discriminate].
      injection R as <- <- <-.
      pose proof (fetchEvents_resume_quiet _ _ _ _ _ _ E) as [Hp Hr].
      apply fetchEvents_resume_frame in E. destruct E as (E & _).
      rewrite E. apply ledger_same; assumption.
Qed.

Lemma run_ledger (es : list event) (c c1 : config) (done : list effect) :
  run c es = Some (c1, done) ->
  ledger (messages (st c)) (messages (st c1)) done.
Proof.
  revert c done. induction es as [|e es IH]; intros c done; cbn [run].
  - intros [= <- <-]. apply ledger_same; reflexivity.
  - destruct (step c e) as [[c2 done2]|] eqn:S; [|discriminate].
    destruct (run c2 es) as [[c3 done3]|] eqn:R; [|discriminate].
    intros [= <- <-]. eapply ledger_trans; [eapply step_ledger; exact S | apply IH; exact R].
Qed.

(** X11: the history only grows at its end: whatever the events of a run,
    the messages before it are a prefix of the messages after it, each at
    its position, none removed, edited or reordered. *)
Theorem X11_history_is_kept (es : list event) (c c1 : config) (done : list effect) :
  run c es = Some (c1, done) ->
  messages (st c1) = messages (st c) ++ added c c1
  /\ forall i m, nth_error (messages (st c)) i = Some m ->
                 nth_error (messages (st c1)) i = Some m.
Proof.
  intros Hrun. destruct (run_ledger es c c1 done Hrun) as (G & _ & _).
  split; [exact G|].
  intros i m Hi. rewrite G.
  rewrite nth_error_app1; [exact Hi|]. apply nth_error_Some. congruence.
Qed.

Lemma X11_history_is_kept_witness :
  exists c1 done,
    run mounted two_turns_one_reading = Some (c1, done)
    /\ messages (st c1) = messages (st mounted) ++ added mounted c1.
Proof.
  eexists _, _. split; [reflexivity|].
  exact (proj1 (X11_history_is_kept two_turns_one_reading mounted _ _ eq_refl)).
Defined.



(** X13: over any run, the calendar backend is called as often as the run
    added replies of the reminder variant. *)
Theorem X13_one_refresh_per_reminder (es : list event) (c c1 : config)
  (done : list effect) :
  run c es = Some (c1, done) ->
  refresh_calls done = List.length (filter is_reminder_reply (added c c1)).
Proof. intros Hrun. apply (run_ledger es c c1 done Hrun). Qed.

Lemma X13_one_refresh_per_reminder_witness :
  exists c1 done,
    run mounted reminder_turn_before_refresh = Some (c1, done)
    /\ refresh_calls done
       = List.length (filter is_reminder_reply (added mounted c1)).
Proof.
  eexists _, _. split; [reflexivity|].
  exact (X13_one_refresh_per_reminder reminder_turn_before_refresh mounted _ _ eq_refl).
Defined.

End Ledger.

(** ** The dialogue *)
Section Dialogue.
Import JS Backend Chat View History Samples.
Local Open Scope list_scope.

Lemma turns_snoc (n : nat) : turns n ++ [user; agent] = turns (S n).
Proof. induction n as [|n IH]; cbn in *; congruence. Qed.

Lemma awaiting_asked (rs : list role) : answered rs -> awaiting (rs ++ [user]).
Proof. intros [n ->]. exists n. reflexivity. Qed.

Lemma answered_replied (rs : list role) : awaiting rs -> answered (rs ++ [agent]).
Proof.
  intros [n ->]. exists (S n). rewrite <- app_assoc. apply turns_snoc.
Qed.

Lemma filter_replace_task (l : list task) (i : nat) (t : task) (next : option task) :
  nth_error l i = Some t ->
  exists a b,
    filter is_submitting l = a ++ (if is_submitting t then [t] else []) ++ b
    /\ filter is_submitting (replace_task i next l)
       = a ++ match next with
              | Some t1 => if is_submitting t1 then [t1] else []
              | None => []
              end ++ b.
Proof.
  revert i. induction l as [|x l IH]; intros [|i]; cbn [nth_error]; try discriminate.
  - intros [= ->]. exists [], (filter is_submitting l). cbn [replace_task filter app].
    split.
    + destruct (is_submitting t); reflexivity.
    + destruct next as [t1|]; [cbn [filter]; destruct (is_submitting t1)|]; reflexivity.
  - intros H. destruct (IH i H) as (a & b & E1 & E2).
    cbn [replace_task filter]. rewrite E1, E2.
    destruct (is_submitting x); [exists (x :: a), b | exists a, b]; split; reflexivity.
Qed.

Lemma handleSubmit_resume_dialogue (p : submit_point) (s : settlement) (now : Z)
  (st0 st1 : state) (done : list effect) (next : option submit_point) :
  handleSubmit_resume p s now st0 = Some (st1, done, next) ->
  expects p (roles st0) ->
  question st1 = question st0
  /\ match next with
     | Some p1 => expects p1 (roles st1) /\ loading st1 = loading st0
     | None => answered (roles st1) /\ loading st1 = false
     end.
Proof.
  unfold roles.
  assert (Hreply : forall m, msg_role m = agent -> awaiting (map msg_role (messages st0)) ->
                     answered (map msg_role (messages st0 ++ [m]))).
  { intros m Hm H. rewrite map_app. cbn [map]. rewrite Hm. apply answered_replied, H. }
  destruct p as [| |q]; cbn [handleSubmit_resume expects].
  - destruct s; try discriminate; try destruct (ok status);
      intros [= <- <- <-] H; cbn; auto.
  - destruct s; try discriminate.
    + intros [= <- <- <-] H; cbn; auto.
    + destruct (interpret data) as [d|]; [destruct (reminder d)|];
        intros [= <- <- <-] H; cbn; auto.
  - destruct (fetchEvents_resume q s st0) as [[[st2 done2] [q2|]]|] eqn:E;
      try discriminate; intros [= <- <- <-] H;
      apply fetchEvents_resume_frame in E; destruct E as (E1 & E2 & E3);
      cbn; rewrite ?E1, ?E2, ?E3; auto.
Qed.

Lemma step_dialogue (c c1 : config) (e : event) (done : list effect) :
  dialogue c -> step c e = Some (c1, done) -> dialogue c1.
Proof.
  unfold dialogue. intros Hc Hstep. destruct e as [text|now|i s now]; cbn [step] in Hstep.
  - destruct (loading (st c)) eqn:L; [discriminate|].
    injection Hstep as <- <-. cbn [st tasks].
    destruct (filter is_submitting (tasks c)) as [|[p|p] [|y r]]; try contradiction.
    + cbn. rewrite L. exact Hc.
    + destruct Hc as (Hc & _). congruence.
  - unfold handleSubmit in Hstep.
    destruct ((trim (question (st c)) =? "")%string || loading (st c)) eqn:G.
    + injection Hstep as <- <-. exact Hc.
    + injection Hstep as <- <-. cbn [st tasks].
      apply orb_false_iff in G. destruct G as [_ L].
      rewrite filter_app. cbn [filter is_submitting].
      destruct (filter is_submitting (tasks c)) as [|[p|p] [|y r]]; try contradiction.
      * cbn. destruct Hc as (_ & Hc). repeat split.
        unfold roles. cbn. rewrite map_app. apply awaiting_asked, Hc.
      * destruct Hc as (Hc & _). congruence.
  - destruct (nth_error (tasks c) i) as [t|] eqn:Hi; [|discriminate].
    destruct (resume t s now (st c)) as [[[st1 done1] next]|] eqn:R; [|discriminate].
    injection Hstep as <- <-. cbn [st tasks].
    destruct (filter_replace_task (tasks c) i t next Hi) as (a & b & E1 & E2).
    rewrite E2. rewrite E1 in Hc.
    destruct t as [p|p]; cbn [resume is_submitting] in R, Hc.
    + destruct (handleSubmit_resume p s now (st c)) as [[[st2 done2] next2]|] eqn:E;
        [|discriminate].
      injection R as <- <- <-.
      destruct a as [|x a]; [|destruct a, b, x; cbn in Hc; contradiction].
      destruct b as [|y b]; [|destruct y; cbn in Hc; contradiction].
      cbn [app] in Hc |- *. destruct Hc as (L & Q & Hp).
      destruct (handleSubmit_resume_dialogue _ _ _ _ _ _ _ E Hp) as (Q1 & H1).
      destruct next2 as [p2|]; cbn [option_map is_submitting].
      * destruct H1 as (H1 & L1). repeat split; congruence.
      * exact (conj (proj2 H1) (proj1 H1)).
    + destruct (fetchEvents_resume p s (st c)) as [[[st2 done2] next2]|] eqn:E;
        [|discriminate].
      injection R as <- <- <-.
      apply fetchEvents_resume_frame in E. destruct E as (F1 & F2 & F3).
      assert (Hsame : a ++ match option_map Refreshing next2 with
                           | Some t1 => if is_submitting t1 then [t1] else []
                           | None => []
                           end ++ b = a ++ [] ++ b)
        by (destruct next2; reflexivity).
      rewrite Hsame. unfold roles in *. rewrite F1, F2, F3. exact Hc.
Qed.

(** X14: in every state the mounted component reaches, the history
    alternates user question and agent reply, starting with a question.
    While [loading] is false every question has its reply; while it is true
    the draft is empty and at most the last question is without a reply. *)
Theorem X14_questions_and_replies_alternate (c : config) :
  reachable c ->
  (loading (st c) = false -> answered (roles (st c)))
  /\ (loading (st c) = true ->
      question (st c) = "" /\ (awaiting (roles (st c)) \/ answered (roles (st c)))).
Proof.
  intros (es & done & Hrun).
  assert (H : dialogue c).
  { assert (Hgen : forall es c0 c1 done,
               dialogue c0 -> run c0 es = Some (c1, done) -> dialogue c1).
    { clear. induction es as [|e es IH]; intros c0 c1 done H0; cbn [run].
      - intros [= <- <-]. exact H0.
      - destruct (step c0 e) as [[c2 done2]|] eqn:S; [|discriminate].
        destruct (run c2 es) as [[c3 done3]|] eqn:R; [|discriminate].
        intros [= <- <-]. eapply IH; [|exact R]. eapply step_dialogue; eassumption. }
    eapply Hgen; [|exact Hrun]. cbn. split; [reflexivity | exists 0%nat; reflexivity]. }
  unfold dialogue in H.
  destruct (filter is_submitting (tasks c)) as [|[p|p] [|y r]]; try contradiction.
  - destruct H as (L & H). split; [auto | congruence].
  - destruct H as (L & Q & H). split; [congruence|].
    intros _. split; [exact Q|]. destruct p; cbn in H; auto.
Qed.

Lemma X14_questions_and_replies_alternate_witness :
  exists c done,
    run mounted reminder_turn_before_refresh = Some (c, done)
    /\ (loading (st c) = true ->
        question (st c) = ""%string
        /\ (awaiting (roles (st c)) \/ answered (roles (st c)))).
Proof.
  eexists _, _. split; [reflexivity|].
  refine (proj2 (X14_questions_and_replies_alternate _ _)).
  exists reminder_turn_before_refresh. eexists. reflexivity.
Defined.

End Dialogue.

(** ** Failing turns and overlapping fetches *)
Section Failures.
Import JS Backend Chat View History Samples.
Local Open Scope list_scope.

(** X15: a turn whose exchange with the RAG backend breaks (no response, a
    status that is not ok, a body that does not parse, a body the
    decoration throws on) keeps the question in the history, answers it
    with the fixed apology, leaves the draft empty and the event store
    untouched, logs the error once and calls no other backend. *)
Theorem X15_failed_turn (c : config) (now1 now2 : Z) (rag : exchange rag_data)
  (cal : exchange events_data) :
  trim (question (st c)) <> "" -> loading (st c) = false ->
  breaks rag = true ->
  let trimmed := trim (question (st c)) in
  run c (turn (List.length (tasks c)) now1 now2 rag cal)
  = Some ({| st := {| messages := messages (st c)
                        ++ [userMessage now1 trimmed; failureMessage now2];
                      question := "";
                      loading := false;
                      calendarEvents := calendarEvents (st c) |};
             tasks := tasks c |},
          [PostRagQuery trimmed; ConsoleError]).
Proof.
  intros Hq Hl Hb trimmed. subst trimmed.
  destruct c as [st0 l]. cbn [st tasks] in *.
  unfold turn. cbn [run step]. unfold handleSubmit. cbn [st tasks].
  rewrite Hl. apply String.eqb_neq in Hq. rewrite Hq. cbn [orb].
  remember (trim (question st0)) as trimmed eqn:Htrim. clear Htrim Hq.
  unfold refreshes. unfold breaks in Hb.
  destruct rag as [|status [body|]]; cbn [settlements];
    [ | destruct (ok status) eqn:Hok; cbn [andb negb orb] in Hb |- *;
        [ destruct (interpret body) as [d|err] eqn:Hd; [discriminate|] | ]
    | destruct (ok status) eqn:Hok ];
    cbn [map app];
    repeat first
      [ rewrite run_settle_last
      | progress cbn [resume handleSubmit_resume fetchEvents_resume option_map]
      | rewrite Hok | rewrite Hd ];
    cbn [run];
    cbv beta iota delta [handleSubmit_catch handleSubmit_finally fetchEvents_catch
         setMessages setLoading setQuestion setCalendarEvents
         messages question loading calendarEvents];
    rewrite ?app_nil_r, <- ?app_assoc; reflexivity.
Qed.

Lemma X15_failed_turn_witness :
  run (asked "test") (turn 1 1 2 (Responded 500 None) NoResponse)
  = Some ({| st := {| messages := [userMessage 1 "test"; failureMessage 2];
                      question := "";
                      loading := false;
                      calendarEvents := VArr [] |};
             tasks := [Refreshing EventsFetch] |},
          [PostRagQuery "test"; ConsoleError]).
Proof.
  apply (X15_failed_turn (asked "test") 1 2 (Responded 500 None) NoResponse).
  - discriminate.
  - reflexivity.
  - reflexivity.
Defined.

Lemma settles_refreshing (x : exchange events_data) (now : Z) (st0 : state)
  (l : list task) :
  exists done,
    run {| st := st0; tasks := Refreshing EventsFetch :: l |} (settles 0 now x)
    = Some ({| st := setCalendarEvents (held x) st0; tasks := l |}, done).
Proof.
  unfold settles.
  destruct x as [|status [[|data]|]]; cbn [settlements held];
    try destruct (ok status) eqn:Hok; cbn [map run step nth_error tasks st resume
      fetchEvents_resume option_map replace_task];
    rewrite ?Hok;
    cbn [map run step nth_error tasks st resume fetchEvents_resume option_map
         replace_task fetchEvents_catch];
    eexists; reflexivity.
Qed.

Lemma settles_refresh_awaited (i : nat) (x : exchange events_data) (now : Z)
  (st0 : state) (l : list task) :
  List.length l = i ->
  exists done,
    run {| st := st0; tasks := l ++ [Submitting (Refresh EventsFetch)] |}
        (settles i now x)
    = Some ({| st := setLoading false (setCalendarEvents (held x) st0); tasks := l |},
            done).
Proof.
  intros <-. unfold settles.
  destruct x as [|status [[|data]|]]; cbn [settlements held];
    try destruct (ok status) eqn:Hok; cbn [map];
    repeat first
      [ rewrite run_settle_last
      | progress cbn [resume handleSubmit_resume fetchEvents_resume option_map]
      | rewrite Hok ];
    cbn [run]; unfold fetchEvents_catch, handleSubmit_finally;
    rewrite ?app_nil_r; eexists; reflexivity.
Qed.

Lemma dated_object (event : value) :
  dated event = true ->
  exists props text,
    event = VObj props /\ own props "date"%string = Some (VStr text)
    /\ forallb (fun name => match own props name with
                            | Some v => displayable v
                            | None => true
                            end)
         ["id"; "time"; "title"; "location"]%string = true.
Proof.
  destruct event as [| | | | | |props]; cbn [dated]; try discriminate.
  intros H. apply andb_true_iff in H. destruct H as [Hdate Hrest].
  destruct (own props "date"%string) as [[| | | |text| |]|] eqn:E; try discriminate.
  exists props, text. auto.
Qed.

Lemma listable_rows (store : value) :
  listable store = true ->
  exists rows, render_events store = Normal rows
               /\ forallb row_displayable rows = true.
Proof.
  destruct store as [| | | | |items|]; cbn [listable render_events]; try discriminate.
  induction items as [|item items IH]; cbn [forallb render_items].
  - intros _. exists []. auto.
  - intros H. apply andb_true_iff in H. destruct H as [Hitem Hrest].
    destruct (IH Hrest) as (rows & -> & Hrows).
    destruct (dated_object item Hitem) as (props & text & -> & Hdate & Hshown).
    cbn [forallb] in Hshown.
    unfold render_event. cbn [event_field bind]. rewrite Hdate. cbn [date_slice bind].
    eexists. split; [reflexivity|]. cbn [forallb]. rewrite Hrows, andb_true_r.
    unfold row_displayable.
    cbn [row_key row_date row_time row_title row_location displayable].
    repeat (apply andb_true_iff in Hshown; destruct Hshown as [? Hshown]).
    destruct (own props "id"%string), (own props "time"%string),
      (own props "title"%string), (own props "location"%string);
      cbn [displayable andb]; repeat (apply andb_true_iff; split);
      first [assumption | reflexivity].
Qed.

Lemma listable_cells (store : value) :
  listable store = true ->
  forall index grid, exists views, render_cells store index grid = Normal views.
Proof.
  destruct store as [| | | | |items|]; cbn [listable]; try discriminate.
  intros H.
  assert (Hitems : Forall (fun item => nullish item = false) items).
  { apply Forall_forall. intros item Hin.
    rewrite forallb_forall in H.
    destruct (dated_object item (H item Hin)) as (props & text & -> & _).
    reflexivity. }
  intros index grid. revert index.
  induction grid as [|c grid IH]; intros index; cbn [render_cells].
  - eexists. reflexivity.
  - destruct (IH (S index)) as [views ->].
    destruct c as [day|]; cbn [render_cell dailyEvents bind].
    + rewrite (filter_items_normal day items Hitems). cbn [bind].
      eexists. reflexivity.
    + eexists. reflexivity.
Qed.

Lemma presentable_renders (s : state) : presentable s -> renders s.
Proof.
  intros [Htext Hstore]. split; [|split].
  - eapply Forall_impl; [|exact Htext].
    intros m [text Hm]. unfold content_lines. rewrite Hm. eauto.
  - apply listable_cells, Hstore.
  - apply listable_rows, Hstore.
Qed.

Lemma fetchEvents_resume_listable (p : events_point) (s : settlement) (now : Z)
  (i : nat) (st0 st1 : state) (done : list effect) (next : option events_point) :
  fetchEvents_resume p s st0 = Some (st1, done, next) ->
  listed_body (Settle i s now) ->
  listable (calendarEvents st0) = true -> listable (calendarEvents st1) = true.
Proof.
  destruct p, s; cbn [fetchEvents_resume listed_body]; try discriminate;
    try destruct (ok status); try destruct data;
    intros [= <- <- <-]; cbn; auto.
Qed.

Lemma step_presentable (c c1 : config) (e : event) (done : list effect) :
  step c e = Some (c1, done) -> string_answer e -> listed_body e ->
  presentable (st c) -> presentable (st c1).
Proof.
  intros Hstep Htext Hbody [Hm Hs].
  split; [exact (step_textual c c1 e done Hstep Htext Hm)|].
  destruct e as [text|now|i s now]; cbn [step] in Hstep.
  - destruct (loading (st c)); [discriminate|]. injection Hstep as <- <-. exact Hs.
  - unfold handleSubmit in Hstep.
    destruct ((trim (question (st c)) =? "")%string || loading (st c));
      injection Hstep as <- <-; exact Hs.
  - destruct (nth_error (tasks c) i) as [t|]; [|discriminate].
    destruct (resume t s now (st c)) as [[[st1 done1] next]|] eqn:R; [|discriminate].
    injection Hstep as <- <-. cbn [st].
    destruct t as [p|p]; cbn [resume] in R.
    + destruct (handleSubmit_resume p s now (st c)) as [[[st2 done2] next2]|] eqn:E;
        [|discriminate].
      injection R as <- <- <-.
      destruct p as [| |q]; cbn [handleSubmit_resume] in E.
      * destruct s; try discriminate; try destruct (ok status);
          injection E as <- <- <-; exact Hs.
      * destruct s as [| | |body|]; try discriminate.
        -- injection E as <- <- <-; exact Hs.
        -- destruct (interpret body) as [d|]; [destruct (reminder d)|];
             injection E as <- <- <-; exact Hs.
      * destruct (fetchEvents_resume q s (st c)) as [[[st3 done3] [q3|]]|] eqn:F;
          try discriminate; injection E as <- <- <-;
          apply (fetchEvents_resume_listable _ _ now i) in F; assumption.
    + destruct (fetchEvents_resume p s (st c)) as [[[st2 done2] next2]|] eqn:E;
        [|discriminate].
      injection R as <- <- <-.
      apply (fetchEvents_resume_listable _ _ now i) in E; assumption.
Qed.

(** While every answer is a text and every calendar body lists dated
    events, every configuration a run goes through renders. *)
Lemma visited_renders (es : list event) (c : config) :
  Forall string_answer es -> Forall listed_body es -> presentable (st c) ->
  Forall (fun c1 => renders (st c1)) (visited c es).
Proof.
  revert c. induction es as [|e es IH]; intros c Ht Hb Hc; cbn [visited].
  - constructor; [apply presentable_renders, Hc | constructor].
  - constructor; [apply presentable_renders, Hc|].
    destruct (step c e) as [[c1 done]|] eqn:S; [|constructor].
    inversion Ht as [|? ? Ht1 Ht2]; subst. inversion Hb as [|? ? Hb1 Hb2]; subst.
    apply IH; try assumption. eapply step_presentable; eassumption.
Qed.

Lemma settles_shown (i : nat) (now : Z) (x : exchange events_data) :
  listable (held x) = true ->
  Forall string_answer (settles i now x) /\ Forall listed_body (settles i now x).
Proof.
  unfold settles.
  destruct x as [|status [[|data]|]]; cbn [settlements held];
    try destruct (ok status); cbn [map]; intros H;
    split; repeat constructor; exact H.
Qed.

(** X16: the fetch of the mount effect and the refresh of a reminder turn
    can be in flight together.  When the reminder answer is a text and both
    calendar exchanges give a store the calendar card can show (a list of
    dated events, or a failure), every configuration on the way renders and
    the store ends as what the exchange that settles last gave: when the
    mount fetch settles after the refresh, its older answer replaces the
    refreshed list. *)
Theorem X16_last_settled_fetch_wins (q : string) (now1 now2 now3 status : Z)
  (data : rag_data) (mount refresh : exchange events_data) :
  trim q <> "" -> ok status = true -> isReminder data = true ->
  (exists text, answerText data = VStr text) ->
  listable (held mount) = true -> listable (held refresh) = true ->
  let asked := reminder_arrives q now1 now2 status data in
  let mount_last := asked ++ settles 1 now3 refresh ++ settles 0 now3 mount in
  let refresh_last := asked ++ settles 0 now3 mount ++ settles 0 now3 refresh in
  (exists c done,
     run mounted mount_last = Some (c, done)
     /\ calendarEvents (st c) = held mount
     /\ loading (st c) = false /\ tasks c = []
     /\ Forall (fun c1 => renders (st c1)) (visited mounted mount_last))
  /\ (exists c done,
        run mounted refresh_last = Some (c, done)
        /\ calendarEvents (st c) = held refresh
        /\ loading (st c) = false /\ tasks c = []
        /\ Forall (fun c1 => renders (st c1)) (visited mounted refresh_last)).
Proof.
  intros Hq Hok Hr Htext Hmount Hrefresh asked mount_last refresh_last.
  subst mount_last refresh_last asked.
  pose proof (interpret_of_reminder data Hr) as Hd.
  apply String.eqb_neq in Hq.
  assert (Hstart : presentable (st mounted))
    by (split; [constructor | reflexivity]).
  assert (Hasked_shown :
            Forall string_answer (reminder_arrives q now1 now2 status data)
            /\ Forall listed_body (reminder_arrives q now1 now2 status data)).
  { unfold reminder_arrives. split; repeat constructor. exact Htext. }
  destruct (settles_shown 0 now3 mount Hmount) as [Tm Bm].
  destruct (settles_shown 0 now3 refresh Hrefresh) as [Tr0 Br0].
  destruct (settles_shown 1 now3 refresh Hrefresh) as [Tr1 Br1].
  destruct Hasked_shown as [Ta Ba].
  assert (Hasked : exists st1,
    run mounted (reminder_arrives q now1 now2 status data)
    = Some ({| st := st1;
               tasks := [Refreshing EventsFetch; Submitting (Refresh EventsFetch)] |},
            [PostRagQuery (trim q); GetCalendarEvents])).
  { unfold reminder_arrives, mounted.
    repeat first
      [ progress cbn [run step st tasks loading initial_state setQuestion question
                      orb app nth_error resume handleSubmit_resume option_map
                      replace_task reminder setMessages setLoading messages]
      | progress unfold handleSubmit
      | rewrite Hq | rewrite Hok | rewrite Hd ].
    eexists. reflexivity. }
  destruct Hasked as [st1 Hasked].
  split.
  - rewrite run_app, Hasked, run_app.
    destruct (settles_refresh_awaited 1 refresh now3 st1 [Refreshing EventsFetch]
                eq_refl) as [done1 E1].
    destruct (settles_refreshing mount now3
                (setLoading false (setCalendarEvents (held refresh) st1)) [])
      as [done2 E2].
    cbn [app] in E1. rewrite E1, E2. eexists _, _. repeat split.
    apply visited_renders; [| |exact Hstart]; repeat (apply Forall_app; split);
      assumption.
  - rewrite run_app, Hasked, run_app.
    destruct (settles_refreshing mount now3 st1 [Submitting (Refresh EventsFetch)])
      as [done1 E1].
    destruct (settles_refresh_awaited 0 refresh now3
                (setCalendarEvents (held mount) st1) [] eq_refl) as [done2 E2].
    cbn [app] in E2. rewrite E1, E2. eexists _, _. repeat split.
    apply visited_renders; [| |exact Hstart]; repeat (apply Forall_app; split);
      assumption.
Qed.

Lemma X16_last_settled_fetch_wins_witness :
  let asked := reminder_arrives "test" 1 2 200 reminder_response in
  let mount := Responded 200 (Some (JsonValue {| events := VArr [] |})) in
  let refresh :=
    Responded 200
      (Some (JsonValue
         {| events := VArr [VObj [("id", VNum 1); ("date", VStr "2026-11-02");
                                  ("title", VStr "release")]%string] |})) in
  let mount_last := asked ++ settles 1 3 refresh ++ settles 0 3 mount in
  let refresh_last := asked ++ settles 0 3 mount ++ settles 0 3 refresh in
  (exists c done,
     run mounted mount_last = Some (c, done)
     /\ calendarEvents (st c) = held mount
     /\ loading (st c) = false /\ tasks c = []
     /\ Forall (fun c1 => renders (st c1)) (visited mounted mount_last))
  /\ (exists c done,
        run mounted refresh_last = Some (c, done)
        /\ calendarEvents (st c) = held refresh
        /\ loading (st c) = false /\ tasks c = []
        /\ Forall (fun c1 => renders (st c1)) (visited mounted refresh_last)).
Proof.
  apply (X16_last_settled_fetch_wins "test" 1 2 3 200 reminder_response).
  - discriminate.
  - reflexivity.
  - reflexivity.
  - eexists. reflexivity.
  - reflexivity.
  - reflexivity.
Defined.

(** An event that has no [date] is not listable: line 334 throws on it as
    soon as the refresh has stored it. *)
Example undated_event_breaks_the_list :
  let refresh :=
    Responded 200 (Some (JsonValue {| events := VArr [VObj [("id"%string, VNum 1)]] |})) in
  listable (held refresh) = false
  /\ render_events (held refresh) = Throw TypeError.
Proof. split; reflexivity. Qed.

End Failures.
